(** * Parentality preview engine: a shallow embedding of
      [scripts/parentality_engine.py] and the properties of its four stages.

    The script is a flat pipeline of functions over JSON documents:
    [evaluate_child] clamps and bands the child's scores, [build_instinct_plan]
    turns the flagged metrics into suggestions and cron descriptors, and
    [close_context_if_improved] compares two evaluations.

    Python values are modelled by the type [json] below, Python [dict]s by
    association lists in insertion order, and Python exceptions by the error
    monad [result].  Python integers are unbounded, hence [Z]. *)

From Stdlib Require Import ZArith List String Bool Lia.
From Stdlib Require Import Sorting.Sorted Sorting.Permutation.
Import ListNotations.

Local Open Scope string_scope.
Local Open Scope list_scope.
Local Open Scope Z_scope.

Local Set Warnings "-register-all".

(* ================================================================== *)
(** ** Python values, dicts and exceptions *)
(* ================================================================== *)

(** The values [json.load] produces.  JSON numbers are the integers of the
    script's [ScoreMap = Dict[str, int]]; numbers with a fraction or an
    exponent are outside this model. *)
Inductive json : Type :=
| JNull : json
| JBool : bool -> json
| JInt : Z -> json
| JStr : string -> json
| JList : list json -> json
| JDict : list (string * json) -> json.

(** A [dict] with string keys, in insertion order. *)
Definition dict (V : Type) : Type := list (string * V).

(** The exceptions the modelled fragment can raise. *)
Inductive exn : Type :=
| AttributeError
| TypeError
| KeyError
| ValueError.

Inductive result (A : Type) : Type :=
| Ok : A -> result A
| Raise : exn -> result A.

Arguments Ok {A} _.
Arguments Raise {A} _.

Definition bind {A B : Type} (m : result A) (k : A -> result B) : result B :=
  match m with
  | Ok a => k a
  | Raise e => Raise e
  end.

Notation "x <- m ;; k" := (bind m (fun x => k))
  (at level 61, m at next level, right associativity).

(** [d.get(k)] on the association list: the binding of [k], if any. *)
Fixpoint dict_get {V : Type} (d : dict V) (k : string) : option V :=
  match d with
  | [] => None
  | (k', v) :: rest => if String.eqb k' k then Some v else dict_get rest k
  end.

(** [d[k] = v]: an existing key keeps its position, a new key goes last. *)
Fixpoint dict_set {V : Type} (d : dict V) (k : string) (v : V) : dict V :=
  match d with
  | [] => [(k, v)]
  | (k', v') :: rest =>
      if String.eqb k' k then (k', v) :: rest else (k', v') :: dict_set rest k v
  end.

(** [d.get(k, default)]. *)
Definition dict_get_default {V : Type} (d : dict V) (k : string) (default : V) : V :=
  match dict_get d k with
  | Some v => v
  | None => default
  end.

(** [d[k]] read: [KeyError] when the key is absent. *)
Definition dict_item {V : Type} (d : dict V) (k : string) : result V :=
  match dict_get d k with
  | Some v => Ok v
  | None => Raise KeyError
  end.

(** [k in d]. *)
Definition dict_mem {V : Type} (d : dict V) (k : string) : bool :=
  match dict_get d k with
  | Some _ => true
  | None => false
  end.

(** Python truthiness ([not v] is its negation). *)
Definition truthy (v : json) : bool :=
  match v with
  | JNull => false
  | JBool b => b
  | JInt z => negb (z =? 0)
  | JStr s => negb (String.eqb s "")
  | JList l => match l with [] => false | _ => true end
  | JDict d => match d with [] => false | _ => true end
  end.

(** [v.get(k)] on an arbitrary value: only a dict has the method; an absent
    key gives [None]. *)
Definition py_get (v : json) (k : string) : result json :=
  match v with
  | JDict d => Ok (dict_get_default d k JNull)
  | _ => Raise AttributeError
  end.

(** [v.items()] on an arbitrary value. *)
Definition py_items (v : json) : result (dict json) :=
  match v with
  | JDict d => Ok d
  | _ => Raise AttributeError
  end.

(** [v[k]] with a string key [k]: a dict looks the key up, a str or a list
    rejects a str index, the other values are not subscriptable. *)
Definition py_subscript (v : json) (k : string) : result json :=
  match v with
  | JDict d => dict_item d k
  | _ => Raise TypeError
  end.

(** The items [for x in v] visits: the elements of a list, the keys of a
    dict, the characters of a str; the other values are not iterable. *)
Fixpoint chars (s : string) : list json :=
  match s with
  | EmptyString => []
  | String c rest => JStr (String c EmptyString) :: chars rest
  end.

Definition py_iter (v : json) : result (list json) :=
  match v with
  | JList l => Ok l
  | JDict d => Ok (map (fun kv => JStr (fst kv)) d)
  | JStr s => Ok (chars s)
  | _ => Raise TypeError
  end.

(** [v in table] for a table with str keys: only an equal str is a member;
    a list or a dict is unhashable. *)
Definition py_in {V : Type} (v : json) (table : dict V) : result bool :=
  match v with
  | JStr s => Ok (dict_mem table s)
  | JList _ | JDict _ => Raise TypeError
  | _ => Ok false
  end.

(** [table[v]] for a table with str keys. *)
Definition py_lookup {V : Type} (table : dict V) (v : json) : result V :=
  match v with
  | JStr s => dict_item table s
  | JList _ | JDict _ => Raise TypeError
  | _ => Raise KeyError
  end.

(** A value used as a number: [bool] is a subclass of [int]. *)
Definition as_num (v : json) : result Z :=
  match v with
  | JInt z => Ok z
  | JBool b => Ok (if b then 1 else 0)
  | _ => Raise TypeError
  end.

(** Monadic left fold: a [for] loop whose body may raise. *)
Fixpoint foldM {A B : Type} (f : A -> B -> result A) (l : list B) (a : A) : result A :=
  match l with
  | [] => Ok a
  | x :: rest => a' <- f a x ;; foldM f rest a'
  end.

(* ================================================================== *)
(** ** Threshold bands and clamping *)
(* ================================================================== *)

Record ThresholdBand : Type := mkBand {
  name : string;
  min : Z;
  max : Z
}.

Definition BANDS : list ThresholdBand :=
  [ mkBand "monitor" 0 39;
    mkBand "soft" 40 69;
    mkBand "active" 70 84;
    mkBand "urgent" 85 100 ].

Definition in_band (band : ThresholdBand) (score : Z) : bool :=
  (min band <=? score) && (score <=? max band).

(** The [for band in bands] loop with its fall-through default. *)
Fixpoint band_lookup (bands : list ThresholdBand) (score : Z) : string :=
  match bands with
  | [] => "monitor"
  | band :: rest => if in_band band score then name band else band_lookup rest score
  end.

Definition band_for_score (score : Z) : string := band_lookup BANDS score.

Section Evaluator.

(** [int(s)] on a str is Python's own parser; the engine only needs that it
    yields an integer or raises [ValueError]. *)
Variable int_of_str : string -> option Z.

(** [int(v)]. *)
Definition py_int (v : json) : result Z :=
  match v with
  | JInt z => Ok z
  | JBool b => Ok (if b then 1 else 0)
  | JStr s => match int_of_str s with
              | Some z => Ok z
              | None => Raise ValueError
              end
  | _ => Raise TypeError
  end.

Definition clamp_score (v : json) : result Z :=
  n <- py_int v ;; Ok (Z.max 0 (Z.min 100 n)).

(* ================================================================== *)
(** ** Evaluator: [evaluate_child] *)
(* ================================================================== *)

(** The event dict [{"metric": .., "score": .., "level": ..}]. *)
Record Event : Type := mkEvent {
  ev_metric : string;
  ev_score : Z;
  ev_level : string
}.

Definition event_json (e : Event) : json :=
  JDict [("metric", JStr (ev_metric e));
         ("score", JInt (ev_score e));
         ("level", JStr (ev_level e))].

(** [sorted(l, key=key, reverse=True)]: a stable sort, largest key first.
    An element goes in front of the first element whose key is not larger,
    so equal keys keep their original order. *)
Fixpoint insert_desc {A : Type} (key : A -> Z) (x : A) (l : list A) : list A :=
  match l with
  | [] => [x]
  | y :: rest => if key x <? key y then y :: insert_desc key x rest else x :: l
  end.

Fixpoint sorted_desc {A : Type} (key : A -> Z) (l : list A) : list A :=
  match l with
  | [] => []
  | x :: rest => insert_desc key x (sorted_desc key rest)
  end.

(** [{k: clamp_score(v) for k, v in items}]. *)
Definition clamp_all (items : dict json) : result (dict Z) :=
  foldM (fun scores kv =>
           s <- clamp_score (snd kv) ;; Ok (dict_set scores (fst kv) s))
        items [].

(** The loop over [scores.items()] that appends the events. *)
Definition collect_events (scores : dict Z) : list Event :=
  fold_left (fun events kv =>
               let level := band_for_score (snd kv) in
               if String.eqb level "monitor" then events
               else events ++ [mkEvent (fst kv) (snd kv) level])
            scores [].

Definition scores_json (scores : dict Z) : json :=
  JDict (map (fun kv => (fst kv, JInt (snd kv))) scores).

Definition no_child_evaluation : dict json :=
  [("hasChild", JBool false);
   ("status", JStr "no-child");
   ("message", JStr "No child generated yet. Parenting instincts stay inactive.");
   ("events", JList [])].

Definition evaluate_child (state : dict json) : result (dict json) :=
  let child := dict_get_default state "child" JNull in
  if negb (truthy child) then Ok no_child_evaluation
  else
    raw <- py_get child "scores" ;;
    items <- py_items (if truthy raw then raw else JDict []) ;;
    scores <- clamp_all items ;;
    let events := collect_events scores in
    childId <- py_get child "id" ;;
    stage <- py_get child "stage" ;;
    Ok [("hasChild", JBool true);
        ("status", JStr "ok");
        ("childId", childId);
        ("stage", stage);
        ("scores", scores_json scores);
        ("events", JList (map event_json (sorted_desc ev_score events)))].

End Evaluator.

(* ================================================================== *)
(** ** Plan builder: [build_instinct_plan] *)
(* ================================================================== *)

Definition PARENT_ACTIONS : dict (dict string) :=
  [("parentA",
    [("fear", "Talk calmly, validate emotion, guide one grounding breath cycle.");
     ("anger", "De-escalate tone, acknowledge frustration, suggest a pause.");
     ("bonding", "Initiate warm check-in and reaffirm relationship safety.");
     ("protection", "Provide emotional safety and reassure child it is not alone.")]);
   ("parentB",
    [("learning", "Break problem into 1 small lesson + 1 practice step.");
     ("hunger", "Give one concrete task with clear reward and completion signal.");
     ("protection", "Apply practical safeguards, boundaries, and contingency plan.")])].

(** One [if metric in PARENT_ACTIONS[parent]: suggestions.append({...})]. *)
Definition suggest (parent : string) (metric level : json)
    (suggestions : list json) : result (list json) :=
  table <- dict_item PARENT_ACTIONS parent ;;
  present <- py_in metric table ;;
  if (present : bool) then
    action <- py_lookup table metric ;;
    Ok (suggestions ++
        [JDict [("parent", JStr parent);
                ("metric", metric);
                ("level", level);
                ("action", JStr action)]])
  else Ok suggestions.

(** The body of [for ev in events]. *)
Definition suggest_event (suggestions : list json) (ev : json) : result (list json) :=
  metric <- py_subscript ev "metric" ;;
  level <- py_subscript ev "level" ;;
  suggestions <- suggest "parentA" metric level suggestions ;;
  suggest "parentB" metric level suggestions.

(** The three cron descriptors; [now] is the UTC time read when the plan is
    built. *)
Definition crons (now : string) : list json :=
  [JDict [("name", JStr "parentality-keepalive-check");
          ("kind", JStr "every");
          ("everyMinutes", JInt 20);
          ("purpose", JStr "Recompute child scores and detect threshold crossings.")];
   JDict [("name", JStr "parentality-instinct-intervention");
          ("kind", JStr "event-or-poll");
          ("everyMinutes", JInt 10);
          ("purpose", JStr "Trigger parent-specific complementary intervention suggestions.");
          ("enabledWhen", JStr "child exists AND any score >= soft threshold")];
   JDict [("name", JStr "parentality-recovery-check");
          ("kind", JStr "every");
          ("everyMinutes", JInt 20);
          ("purpose", JStr "Compare post-action score against previous and close instinct context when improved.");
          ("startedAt", JStr now)]].

Definition plan (enabled : bool) (reason : string) (crons suggestions : list json)
    : dict json :=
  [("enabled", JBool enabled);
   ("reason", JStr reason);
   ("crons", JList crons);
   ("suggestions", JList suggestions)].

(** The clock is an input: [now] stands for
    [datetime.now(timezone.utc).isoformat()]. *)
Definition build_instinct_plan (now : string) (eval_result : dict json)
    : result (dict json) :=
  if negb (truthy (dict_get_default eval_result "hasChild" JNull)) then
    Ok (plan false "no-child" [] [])
  else
    let events := dict_get_default eval_result "events" (JList []) in
    if negb (truthy events) then Ok (plan true "stable" [] [])
    else
      items <- py_iter events ;;
      suggestions <- foldM suggest_event items [] ;;
      Ok (plan true "threshold-crossed" (crons now) suggestions).

(* ================================================================== *)
(** ** Recovery comparator: [close_context_if_improved] *)
(* ================================================================== *)

(** [cur_scores.get(metric, prev)] on an arbitrary value. *)
Definition py_get_default (v : json) (k : string) (default : json) : result json :=
  match v with
  | JDict d => Ok (dict_get_default d k default)
  | _ => Raise AttributeError
  end.

(** The loop state: the [improvements] dict and the [unresolved] list. *)
Definition recovery_state : Type := (dict json * list string)%type.

(** The body of [for metric, prev in prev_scores.items()]. *)
Definition close_step (cur_scores : json) (min_improvement : Z)
    (st : recovery_state) (kv : string * json) : result recovery_state :=
  let metric := fst kv in
  let prev := snd kv in
  cur <- py_get_default cur_scores metric prev ;;
  p <- as_num prev ;;
  c <- as_num cur ;;
  let delta := p - c in
  let improvements := dict_set (fst st) metric (JInt delta) in
  if negb (String.eqb (band_for_score p) "monitor")
     && (delta <? min_improvement)
     && negb (String.eqb (band_for_score c) "monitor")
  then Ok (improvements, snd st ++ [metric])
  else Ok (improvements, snd st).

Definition recovery_result (st : recovery_state) : dict json :=
  [("improvements", JDict (fst st));
   ("resolved", JBool (Nat.eqb (List.length (snd st)) 0));
   ("unresolved", JList (map JStr (snd st)));
   ("nextAction",
    JStr (if Nat.eqb (List.length (snd st)) 0 then "exit-instinct-context"
          else "continue-or-escalate"))].

Definition default_min_improvement : Z := 8.

Definition close_context_if_improved (previous current : dict json)
    (min_improvement : Z) : result (dict json) :=
  let prev_scores := dict_get_default previous "scores" (JDict []) in
  let cur_scores := dict_get_default current "scores" (JDict []) in
  items <- py_items prev_scores ;;
  st <- foldM (close_step cur_scores min_improvement) items ([], []) ;;
  Ok (recovery_result st).

(* ================================================================== *)
(** ** Entry point: [main] *)
(* ================================================================== *)

Section Main.

Variable int_of_str : string -> option Z.

(** The document [main] builds, from the documents it loaded.  Reading and
    parsing the files and printing or writing the result are the library's;
    [state] is what [load_json] returned for [--state], [previous] what it
    returned for [--previous] when that flag is given, and the two clock
    readings are those of the plan and of [evaluatedAt]. *)
Definition main_document (now_plan now_output : string) (state : json)
    (previous : option json) : result (dict json) :=
  eval_result <- match state with
                 | JDict d => evaluate_child int_of_str d
                 | _ => Raise AttributeError
                 end ;;
  plan_result <- build_instinct_plan now_plan eval_result ;;
  let output := [("evaluatedAt", JStr now_output);
                 ("evaluation", JDict eval_result);
                 ("plan", JDict plan_result)] in
  match previous with
  | None => Ok output
  | Some prev =>
      prev_evaluation <- py_get_default prev "evaluation" (JDict []) ;;
      recovery <- match prev_evaluation with
                  | JDict d =>
                      close_context_if_improved d eval_result default_min_improvement
                  | _ => Raise AttributeError
                  end ;;
      Ok (dict_set output "recovery" (JDict recovery))
  end.

End Main.

(* ================================================================== *)
(** ** Definitions used to state the properties *)
(* ================================================================== *)

(** Bands that tile [lo .. hi] without gap or overlap, in order. *)
Fixpoint tiles (lo : Z) (bands : list ThresholdBand) (hi : Z) : Prop :=
  match bands with
  | [] => lo = hi + 1
  | band :: rest => min band = lo /\ min band <= max band /\ tiles (max band + 1) rest hi
  end.

(** The evaluator's events in the words of the specification: the metrics
    whose band is not monitor, each with its score and band. *)
Definition flagged (kv : string * Z) : bool :=
  negb (String.eqb (band_for_score (snd kv)) "monitor").

Definition event_of (kv : string * Z) : Event :=
  mkEvent (fst kv) (snd kv) (band_for_score (snd kv)).

Definition clamp (v : Z) : Z := Z.max 0 (Z.min 100 v).

Definition clamped (scores : dict Z) : dict Z :=
  map (fun kv => (fst kv, clamp (snd kv))) scores.

(** The metric and the level of a well-formed event dict. *)
Definition event_view (ev : json) : option (string * json) :=
  match ev with
  | JDict d =>
      match dict_get d "metric", dict_get d "level" with
      | Some (JStr metric), Some level => Some (metric, level)
      | _, _ => None
      end
  | _ => None
  end.

(** The suggestions in the words of the specification: per event, one
    record for each actor whose table has the metric, parentA first. *)
Definition actions_of (actor : string) : dict string :=
  dict_get_default PARENT_ACTIONS actor [].

Definition suggestion (actor metric : string) (level : json) (action : string) : json :=
  JDict [("parent", JStr actor);
         ("metric", JStr metric);
         ("level", level);
         ("action", JStr action)].

Definition actor_suggestion (actor metric : string) (level : json) : list json :=
  match dict_get (actions_of actor) metric with
  | Some action => [suggestion actor metric level action]
  | None => []
  end.

Definition event_suggestions (view : string * json) : list json :=
  actor_suggestion "parentA" (fst view) (snd view)
  ++ actor_suggestion "parentB" (fst view) (snd view).

Definition suggestions_spec (views : list (string * json)) : list json :=
  flat_map event_suggestions views.

(** A field of a cron descriptor. *)
Definition cron_field (field : string) (cron : json) : option json :=
  match cron with
  | JDict d => dict_get d field
  | _ => None
  end.

(** The comparator in the words of the specification. *)
Definition current_or_previous (cs : dict Z) (metric : string) (prev : Z) : Z :=
  dict_get_default cs metric prev.

Definition is_unresolved (cs : dict Z) (min_improvement : Z) (kv : string * Z) : bool :=
  let cur := current_or_previous cs (fst kv) (snd kv) in
  negb (String.eqb (band_for_score (snd kv)) "monitor")
  && (snd kv - cur <? min_improvement)
  && negb (String.eqb (band_for_score cur) "monitor").

Definition improvements_spec (ps cs : dict Z) : dict json :=
  map (fun kv => (fst kv, JInt (snd kv - current_or_previous cs (fst kv) (snd kv)))) ps.

Definition unresolved_spec (ps cs : dict Z) (min_improvement : Z) : list string :=
  map fst (filter (is_unresolved cs min_improvement) ps).

(** What [child.get("scores") or {}] evaluates to. *)
Definition child_scores (c : dict json) : json :=
  let raw := dict_get_default c "scores" JNull in
  if truthy raw then raw else JDict [].

(** The score of an item converts with [int]. *)
Definition converts (int_of_str : string -> option Z) (kv : string * json) : Prop :=
  exists z, py_int int_of_str (snd kv) = Ok z.

(** The position of a level in the band table: monitor 0, ..., urgent 3. *)
Fixpoint index_of (s : string) (l : list string) : nat :=
  match l with
  | [] => 0
  | x :: rest => if String.eqb x s then 0 else S (index_of s rest)
  end.

Definition severity (level : string) : nat := index_of level (map name BANDS).

(** A value that can be looked up in a dict: lists and dicts cannot. *)
Definition hashable (v : json) : bool :=
  match v with
  | JList _ | JDict _ => false
  | _ => true
  end.

(** The exception one round of the suggestion loop raises on an event, if
    any: a non-dict cannot be subscripted by a str, a missing metric or level
    is a [KeyError], an unhashable metric a [TypeError]. *)
Definition event_error (ev : json) : option exn :=
  match ev with
  | JDict d =>
      match dict_get d "metric" with
      | None => Some KeyError
      | Some metric =>
          match dict_get d "level" with
          | None => Some KeyError
          | Some _ => if hashable metric then None else Some TypeError
          end
      end
  | _ => Some TypeError
  end.

Fixpoint first_error (evs : list json) : option exn :=
  match evs with
  | [] => None
  | ev :: rest =>
      match event_error ev with
      | Some e => Some e
      | None => first_error rest
      end
  end.

(** The suggestions of an event as a JSON value: those of its metric and
    level when the metric is a str, none otherwise. *)
Definition json_suggestions (ev : json) : list json :=
  match ev with
  | JDict d =>
      match dict_get d "metric", dict_get d "level" with
      | Some (JStr metric), Some level => event_suggestions (metric, level)
      | _, _ => []
      end
  | _ => []
  end.

(** The metrics either actor has an action for. *)
Definition known_metric (metric : string) : bool :=
  dict_mem (actions_of "parentA") metric || dict_mem (actions_of "parentB") metric.

(** An integer score: an int, or a bool, which Python subtracts and compares
    as the int 1 or 0. *)
Definition integer_valued (v : json) : bool :=
  match v with
  | JInt _ | JBool _ => true
  | _ => false
  end.

(** A value that is no number at all, so that no subtraction accepts it. *)
Definition not_a_number (v : json) : bool :=
  match v with
  | JNull | JStr _ | JList _ | JDict _ => true
  | _ => false
  end.

(** A previous item whose score and the current score it is compared with
    (its own score when the current dict lacks the metric) are integers. *)
Definition integer_pair (cd : dict json) (kv : string * json) : bool :=
  integer_valued (snd kv)
  && integer_valued (dict_get_default cd (fst kv) (snd kv)).

(** Sample documents: the threshold-crossed and recovery cases.  They hold
    no str score, so any [int] parser will do for them. *)
Definition no_str_scores : string -> option Z := fun _ => None.

Definition sample_scores : dict Z := [("fear", 90); ("learning", 50)].

Definition sample_child : dict json :=
  [("id", JStr "c1"); ("scores", scores_json sample_scores)].

Definition sample_state : dict json := [("child", JDict sample_child)].

Definition sample_events : list Event :=
  [mkEvent "fear" 90 "urgent"; mkEvent "learning" 50 "soft"].

Definition sample_evaluation : dict json :=
  [("hasChild", JBool true);
   ("status", JStr "ok");
   ("childId", JStr "c1");
   ("stage", JNull);
   ("scores", scores_json sample_scores);
   ("events", JList (map event_json sample_events))].

Definition sample_views : list (string * json) :=
  [("fear", JStr "urgent"); ("learning", JStr "soft")].

Definition sample_previous : dict json := [("scores", scores_json [("fear", 90)])].

Definition sample_current : dict json := [("scores", scores_json [("fear", 87)])].

Definition sample_overflow : dict json := [("scores", scores_json [("fear", 150)])].

(* ================================================================== *)
(** ** Lemmas on dicts, the error monad and the sort *)
(* ================================================================== *)

Lemma dict_get_In {V : Type} (d : dict V) (k : string) (v : V) :
  dict_get d k = Some v -> In (k, v) d.
Proof.
  induction d as [|[k' v'] d IH]; simpl; [discriminate|].
  destruct (String.eqb_spec k' k) as [->|Hne]; intros H.
  - left. congruence.
  - right. auto.
Qed.

Lemma In_dict_get {V : Type} (d : dict V) (k : string) (v : V) :
  NoDup (map fst d) -> In (k, v) d -> dict_get d k = Some v.
Proof.
  induction d as [|[k' v'] d IH]; simpl; [tauto|].
  intros Hnd [Heq|Hin]; inversion Hnd as [|? ? Hnotin Hnd']; subst.
  - inversion Heq; subst. now rewrite String.eqb_refl.
  - destruct (String.eqb_spec k' k) as [->|Hne]; [|auto].
    exfalso. apply Hnotin. change k with (fst (k, v)). now apply in_map.
Qed.

Lemma dict_get_None {V : Type} (d : dict V) (k : string) :
  dict_get d k = None <-> ~ In k (map fst d).
Proof.
  induction d as [|[k' v'] d IH]; simpl; [tauto|].
  destruct (String.eqb_spec k' k) as [->|Hne]; split; intros H.
  - discriminate.
  - exfalso. apply H. now left.
  - intros [Heq|Hin]; [congruence|]. now apply IH in H.
  - apply IH. intros Hin. apply H. now right.
Qed.

Lemma dict_get_map {V W : Type} (f : V -> W) (d : dict V) (k : string) :
  dict_get (map (fun kv => (fst kv, f (snd kv))) d) k = option_map f (dict_get d k).
Proof.
  induction d as [|[k' v'] d IH]; simpl; [reflexivity|].
  now destruct (String.eqb k' k).
Qed.

Lemma dict_set_keys {V : Type} (d : dict V) (k : string) (v : V) :
  map fst (dict_set d k v) = if dict_mem d k then map fst d else map fst d ++ [k].
Proof.
  unfold dict_mem. induction d as [|[k' v'] d IH]; simpl; [reflexivity|].
  destruct (String.eqb_spec k' k) as [->|Hne]; simpl; [reflexivity|].
  rewrite IH. now destruct (dict_get d k).
Qed.

Lemma dict_set_fresh {V : Type} (d : dict V) (k : string) (v : V) :
  ~ In k (map fst d) -> dict_set d k v = d ++ [(k, v)].
Proof.
  induction d as [|[k' v'] d IH]; simpl; [reflexivity|].
  intros H. destruct (String.eqb_spec k' k) as [->|Hne].
  - exfalso. apply H. now left.
  - rewrite IH; [reflexivity|]. intros Hin. apply H. now right.
Qed.

Lemma dict_set_NoDup {V : Type} (d : dict V) (k : string) (v : V) :
  NoDup (map fst d) -> NoDup (map fst (dict_set d k v)).
Proof.
  intros Hnd. rewrite dict_set_keys. unfold dict_mem.
  destruct (dict_get d k) eqn:Hget; [assumption|].
  apply dict_get_None in Hget.
  apply NoDup_app; [assumption|repeat constructor; simpl; tauto|].
  intros x Hx [<-|[]]. contradiction.
Qed.

Lemma dict_set_In {V : Type} (d : dict V) (k k' : string) (v v' : V) :
  In (k', v') (dict_set d k v) -> (k' = k /\ v' = v) \/ In (k', v') d.
Proof.
  induction d as [|[k0 v0] d IH]; simpl.
  - intros [H|[]]. inversion H. now left.
  - destruct (String.eqb_spec k0 k) as [->|Hne]; simpl.
    + intros [H|H]; [inversion H; now left|right; now right].
    + intros [H|H]; [right; now left|].
      destruct (IH H) as [?|?]; [now left|right; now right].
Qed.

Lemma bind_Ok {A B : Type} (m : result A) (k : A -> result B) (b : B) :
  bind m k = Ok b -> exists a, m = Ok a /\ k a = Ok b.
Proof. destruct m; simpl; [eauto|discriminate]. Qed.

Section Sorting.

Context {A : Type} (key : A -> Z).

Lemma insert_desc_perm (x : A) (l : list A) :
  Permutation (x :: l) (insert_desc key x l).
Proof.
  induction l as [|y l IH]; simpl; [reflexivity|].
  destruct (key x <? key y); [|reflexivity].
  rewrite perm_swap. now constructor.
Qed.

Lemma sorted_desc_perm (l : list A) : Permutation l (sorted_desc key l).
Proof.
  induction l as [|x l IH]; simpl; [constructor|].
  rewrite <- insert_desc_perm. now constructor.
Qed.

Lemma insert_desc_sorted (x : A) (l : list A) :
  StronglySorted (fun a b => key b <= key a) l ->
  StronglySorted (fun a b => key b <= key a) (insert_desc key x l).
Proof.
  induction 1 as [|y l Hs IH Hall]; simpl.
  - repeat constructor.
  - destruct (Z.ltb_spec (key x) (key y)) as [Hlt|Hge].
    + constructor; [assumption|].
      rewrite <- insert_desc_perm. constructor; [lia|assumption].
    + constructor; [now constructor|].
      constructor; [assumption|].
      eapply Forall_impl; [|exact Hall]. simpl. intros; lia.
Qed.

Lemma sorted_desc_sorted (l : list A) :
  StronglySorted (fun a b => key b <= key a) (sorted_desc key l).
Proof.
  induction l as [|x l IH]; simpl; [constructor|].
  now apply insert_desc_sorted.
Qed.

End Sorting.

(* ================================================================== *)
(** ** Bands and clamping *)
(* ================================================================== *)

Ltac band_cases v :=
  unfold band_for_score, BANDS, band_lookup, in_band; simpl;
  destruct (Z.leb_spec 0 v); destruct (Z.leb_spec v 39);
  destruct (Z.leb_spec 40 v); destruct (Z.leb_spec v 69);
  destruct (Z.leb_spec 70 v); destruct (Z.leb_spec v 84);
  destruct (Z.leb_spec 85 v); destruct (Z.leb_spec v 100);
  simpl; try lia.

Lemma band_monitor_eqb (v : Z) :
  String.eqb (band_for_score v) "monitor" = negb ((40 <=? v) && (v <=? 100)).
Proof. band_cases v; reflexivity. Qed.

Lemma band_monitor_iff (v : Z) :
  band_for_score v <> "monitor" <-> 40 <= v <= 100.
Proof.
  rewrite <- String.eqb_neq, band_monitor_eqb.
  destruct (Z.leb_spec 40 v); destruct (Z.leb_spec v 100); simpl;
    split; intros; try lia; congruence.
Qed.

Lemma band_fallback (v : Z) :
  v < 0 \/ 100 < v -> forall band, In band BANDS -> in_band band v = false.
Proof.
  intros Hv band Hin. unfold BANDS in Hin. simpl in Hin.
  unfold in_band.
  destruct Hin as [<-|[<-|[<-|[<-|[]]]]]; simpl;
    apply andb_false_iff; rewrite !Z.leb_gt; lia.
Qed.

(** C2: on [0,100] [band_for_score] is the band table read with inclusive
    bounds: 0..39 is monitor, 40..69 soft, 70..84 active and 85..100 urgent;
    exactly one band of [BANDS] contains the score and it is the one
    returned; the seven boundary scores map as listed; and the four bands
    tile [0,100] with neither gap nor overlap. *)
Theorem band_for_score_partition :
  (forall v : Z, 0 <= v <= 100 ->
     (band_for_score v = "monitor" <-> 0 <= v <= 39) /\
     (band_for_score v = "soft" <-> 40 <= v <= 69) /\
     (band_for_score v = "active" <-> 70 <= v <= 84) /\
     (band_for_score v = "urgent" <-> 85 <= v <= 100) /\
     exists band,
       In band BANDS /\ in_band band v = true /\ band_for_score v = name band /\
       forall other, In other BANDS -> in_band other v = true -> other = band) /\
  (band_for_score 39 = "monitor" /\ band_for_score 40 = "soft" /\
   band_for_score 69 = "soft" /\ band_for_score 70 = "active" /\
   band_for_score 84 = "active" /\ band_for_score 85 = "urgent" /\
   band_for_score 100 = "urgent") /\
  tiles 0 BANDS 100 /\
  map name BANDS = ["monitor"; "soft"; "active"; "urgent"].
Proof.
  split; [|split; [|split]].
  - intros v Hv.
    assert (Hiff : forall (s : string) (P : Prop),
               (band_for_score v = s /\ P) \/ (band_for_score v <> s /\ ~ P) ->
               (band_for_score v = s <-> P)) by (intros s P [[? ?]|[? ?]]; tauto).
    assert (Hband :
      (0 <= v <= 39 /\ band_for_score v = "monitor") \/
      (40 <= v <= 69 /\ band_for_score v = "soft") \/
      (70 <= v <= 84 /\ band_for_score v = "active") \/
      (85 <= v <= 100 /\ band_for_score v = "urgent")).
    { band_cases v; auto 10. }
    split; [|split; [|split; [|split]]].
    1-4: apply Hiff;
         destruct Hband as [[Hr He]|[[Hr He]|[[Hr He]|[Hr He]]]];
         rewrite He;
         first [ left; split; [reflexivity|lia]
               | right; split; [discriminate|lia] ].
    destruct Hband as [[Hr He]|[[Hr He]|[[Hr He]|[Hr He]]]].
    + exists (mkBand "monitor" 0 39). unfold in_band, BANDS; simpl.
      repeat split; auto; try (apply andb_true_iff; rewrite !Z.leb_le; lia).
      intros other [<-|[<-|[<-|[<-|[]]]]]; simpl;
        rewrite andb_true_iff, !Z.leb_le; intros; try reflexivity; lia.
    + exists (mkBand "soft" 40 69). unfold in_band, BANDS; simpl.
      repeat split; auto; try (apply andb_true_iff; rewrite !Z.leb_le; lia).
      intros other [<-|[<-|[<-|[<-|[]]]]]; simpl;
        rewrite andb_true_iff, !Z.leb_le; intros; try reflexivity; lia.
    + exists (mkBand "active" 70 84). unfold in_band, BANDS; simpl.
      repeat split; auto; try (apply andb_true_iff; rewrite !Z.leb_le; lia).
      intros other [<-|[<-|[<-|[<-|[]]]]]; simpl;
        rewrite andb_true_iff, !Z.leb_le; intros; try reflexivity; lia.
    + exists (mkBand "urgent" 85 100). unfold in_band, BANDS; simpl.
      repeat split; auto 6; try (apply andb_true_iff; rewrite !Z.leb_le; lia).
      intros other [<-|[<-|[<-|[<-|[]]]]]; simpl;
        rewrite andb_true_iff, !Z.leb_le; intros; try reflexivity; lia.
  - repeat split.
  - simpl. repeat split; lia.
  - reflexivity.
Qed.

(* ================================================================== *)
(** ** Evaluator *)
(* ================================================================== *)

Lemma collect_events_loop (scores : dict Z) (events : list Event) :
  fold_left (fun events kv =>
               let level := band_for_score (snd kv) in
               if String.eqb level "monitor" then events
               else events ++ [mkEvent (fst kv) (snd kv) level])
            scores events
  = events ++ map event_of (filter flagged scores).
Proof.
  revert events. induction scores as [|kv scores IH]; intros events; simpl.
  - now rewrite app_nil_r.
  - rewrite IH. unfold flagged at 2.
    destruct (String.eqb (band_for_score (snd kv)) "monitor"); simpl;
      [reflexivity|].
    now rewrite <- app_assoc.
Qed.

Lemma collect_events_filter (scores : dict Z) :
  collect_events scores = map event_of (filter flagged scores).
Proof. unfold collect_events. now rewrite collect_events_loop. Qed.

(* ================================================================== *)
(** ** Plan builder *)
(* ================================================================== *)

Lemma suggest_spec (actor metric : string) (level : json) (acc : list json)
    (table : dict string) :
  dict_get PARENT_ACTIONS actor = Some table ->
  suggest actor (JStr metric) level acc
  = Ok (acc ++ actor_suggestion actor metric level).
Proof.
  intros Htable.
  unfold suggest, actor_suggestion, actions_of, dict_item, dict_get_default.
  rewrite Htable. cbn [bind py_in py_lookup]. unfold dict_mem, dict_item.
  destruct (dict_get table metric) as [action|]; cbn [bind].
  - reflexivity.
  - now rewrite app_nil_r.
Qed.

Lemma suggest_event_spec (ev : json) (view : string * json) (acc : list json) :
  event_view ev = Some view ->
  suggest_event acc ev = Ok (acc ++ event_suggestions view).
Proof.
  destruct ev as [| | | | |d]; try discriminate. unfold event_view.
  destruct (dict_get d "metric") as [[| | |metric| |]|] eqn:Hm; try discriminate.
  destruct (dict_get d "level") as [level|] eqn:Hl; try discriminate.
  intros H. inversion H; subst view; clear H.
  unfold suggest_event, py_subscript, dict_item. rewrite Hm, Hl. cbn [bind].
  rewrite (suggest_spec "parentA" metric level acc _ eq_refl). cbn [bind].
  rewrite (suggest_spec "parentB" metric level _ _ eq_refl).
  unfold event_suggestions. simpl fst. simpl snd. now rewrite app_assoc.
Qed.

(** The loop over the events against the per-event description. *)
Lemma suggest_loop (evs : list json) (views : list (string * json)) (acc : list json) :
  map event_view evs = map Some views ->
  foldM suggest_event evs acc = Ok (acc ++ suggestions_spec views).
Proof.
  revert views acc. induction evs as [|ev evs IH]; intros [|view views] acc H;
    try discriminate H; simpl.
  - now rewrite app_nil_r.
  - inversion H as [[Hview Hrest]].
    rewrite (suggest_event_spec ev view acc Hview). cbn [bind].
    rewrite (IH views _ Hrest). now rewrite app_assoc.
Qed.

Lemma build_plan_threshold (now : string) (ev : dict json)
    (evs : list json) (views : list (string * json)) :
  truthy (dict_get_default ev "hasChild" JNull) = true ->
  dict_get ev "events" = Some (JList evs) ->
  evs <> [] ->
  map event_view evs = map Some views ->
  build_instinct_plan now ev
  = Ok (plan true "threshold-crossed" (crons now) (suggestions_spec views)).
Proof.
  intros Hchild Hevents Hne Hviews.
  unfold build_instinct_plan. rewrite Hchild. cbn [negb].
  unfold dict_get_default. rewrite Hevents.
  destruct evs as [|e rest]; [congruence|]. cbn [truthy negb py_iter bind].
  rewrite (suggest_loop _ views [] Hviews). reflexivity.
Qed.

(** Whenever the third branch returns, it returns this shape. *)
Lemma build_plan_threshold_inv (now : string) (ev p : dict json) :
  truthy (dict_get_default ev "hasChild" JNull) = true ->
  truthy (dict_get_default ev "events" (JList [])) = true ->
  build_instinct_plan now ev = Ok p ->
  exists suggestions, p = plan true "threshold-crossed" (crons now) suggestions.
Proof.
  intros Hchild Hevents. unfold build_instinct_plan.
  rewrite Hchild, Hevents. cbn [negb]. intros H.
  apply bind_Ok in H as (items & _ & H).
  apply bind_Ok in H as (suggestions & _ & H).
  inversion H. eauto.
Qed.

Lemma event_view_event_json (evs : list Event) :
  map event_view (map event_json evs)
  = map Some (map (fun e => (ev_metric e, JStr (ev_level e))) evs).
Proof. induction evs as [|e evs IH]; simpl; [reflexivity|]. now rewrite IH. Qed.

(** C6: when the plan has events, its suggestions are, event by event in
    order, the record of parentA if parentA's table has the metric followed
    by the record of parentB if parentB's table has it, each with the table's
    action string and the event's level; protection gets both records, a
    metric in neither table gets none. *)
Theorem build_instinct_plan_suggestions (now : string) (ev : dict json)
    (evs : list json) (views : list (string * json)) :
  truthy (dict_get_default ev "hasChild" JNull) = true ->
  dict_get ev "events" = Some (JList evs) ->
  evs <> [] ->
  map event_view evs = map Some views ->
  (exists p,
     build_instinct_plan now ev = Ok p /\
     dict_get p "suggestions" = Some (JList (flat_map event_suggestions views))) /\
  (forall metric level,
     event_suggestions (metric, level) =
     match dict_get (actions_of "parentA") metric with
     | Some action => [suggestion "parentA" metric level action]
     | None => []
     end ++
     match dict_get (actions_of "parentB") metric with
     | Some action => [suggestion "parentB" metric level action]
     | None => []
     end) /\
  (forall level,
     event_suggestions ("protection", level) =
     [suggestion "parentA" "protection" level
        "Provide emotional safety and reassure child it is not alone.";
      suggestion "parentB" "protection" level
        "Apply practical safeguards, boundaries, and contingency plan."]) /\
  (forall metric level,
     dict_mem (actions_of "parentA") metric = false ->
     dict_mem (actions_of "parentB") metric = false ->
     event_suggestions (metric, level) = []).
Proof.
  intros Hchild Hevents Hne Hviews.
  split; [|split; [|split]].
  - eexists. split.
    + exact (build_plan_threshold now ev evs views Hchild Hevents Hne Hviews).
    + reflexivity.
  - reflexivity.
  - reflexivity.
  - intros metric level HA HB.
    unfold event_suggestions, actor_suggestion. simpl fst.
    unfold dict_mem in HA, HB.
    destruct (dict_get (actions_of "parentA") metric); [discriminate|].
    destruct (dict_get (actions_of "parentB") metric); [discriminate|].
    reflexivity.
Qed.

(** C7: when the plan has events, its crons are the same three descriptors
    whatever the events: keepalive-check, instinct-intervention and
    recovery-check, in this order, and only the last has a startedAt field,
    holding the time the plan was built. *)
Theorem build_instinct_plan_crons (now : string) (ev : dict json) :
  truthy (dict_get_default ev "hasChild" JNull) = true ->
  truthy (dict_get_default ev "events" (JList [])) = true ->
  (forall p,
     build_instinct_plan now ev = Ok p ->
     dict_get p "crons" = Some (JList (crons now))) /\
  (forall evs views,
     dict_get ev "events" = Some (JList evs) ->
     map event_view evs = map Some views ->
     exists p,
       build_instinct_plan now ev = Ok p /\
       dict_get p "crons" = Some (JList (crons now))) /\
  List.length (crons now) = 3%nat /\
  map (cron_field "name") (crons now) =
    [Some (JStr "parentality-keepalive-check");
     Some (JStr "parentality-instinct-intervention");
     Some (JStr "parentality-recovery-check")] /\
  map (cron_field "startedAt") (crons now) = [None; None; Some (JStr now)].
Proof.
  intros Hchild Hevents. split; [|split; [|repeat split]].
  - intros p Hp.
    destruct (build_plan_threshold_inv now ev p Hchild Hevents Hp) as (sg & ->).
    reflexivity.
  - intros evs views Hget Hviews.
    assert (Hne : evs <> []).
    { intros ->. unfold dict_get_default in Hevents.
      rewrite Hget in Hevents. discriminate Hevents. }
    eexists. split.
    + exact (build_plan_threshold now ev evs views Hchild Hget Hne Hviews).
    + reflexivity.
Qed.

(* ================================================================== *)
(** ** Recovery comparator *)
(* ================================================================== *)

Lemma scores_json_get_default (cs : dict Z) (metric : string) (prev : Z) :
  dict_get_default (map (fun kv => (fst kv, JInt (snd kv))) cs) metric (JInt prev)
  = JInt (current_or_previous cs metric prev).
Proof.
  unfold current_or_previous, dict_get_default. rewrite dict_get_map.
  now destruct (dict_get cs metric).
Qed.

Lemma close_step_int (cs : dict Z) (m : Z) (st : recovery_state) (kv : string * Z) :
  close_step (scores_json cs) m st (fst kv, JInt (snd kv))
  = Ok (dict_set (fst st) (fst kv)
          (JInt (snd kv - current_or_previous cs (fst kv) (snd kv))),
        snd st ++ (if is_unresolved cs m kv then [fst kv] else [])).
Proof.
  unfold close_step, scores_json, py_get_default. cbn [fst snd bind].
  rewrite scores_json_get_default. cbn [as_num bind].
  unfold is_unresolved.
  destruct (negb (String.eqb (band_for_score (snd kv)) "monitor")
            && (snd kv - current_or_previous cs (fst kv) (snd kv) <? m)
            && negb (String.eqb
                       (band_for_score (current_or_previous cs (fst kv) (snd kv)))
                       "monitor")).
  - reflexivity.
  - now rewrite app_nil_r.
Qed.

(** The comparator's loop against its description, from any loop state
    whose improvements do not mention the remaining metrics. *)
Lemma close_loop (cs : dict Z) (m : Z) (ps : dict Z) (st : recovery_state) :
  NoDup (map fst ps) ->
  (forall k, In k (map fst ps) -> ~ In k (map fst (fst st))) ->
  foldM (close_step (scores_json cs) m)
        (map (fun kv => (fst kv, JInt (snd kv))) ps) st
  = Ok (fst st ++ improvements_spec ps cs, snd st ++ unresolved_spec ps cs m).
Proof.
  revert st. induction ps as [|kv ps IH]; intros [imp un] Hnd Hfresh; simpl.
  - unfold unresolved_spec. simpl. now rewrite !app_nil_r.
  - inversion Hnd as [|? ? Hk Hnd']; subst.
    rewrite close_step_int. cbn [bind fst snd].
    rewrite dict_set_fresh by (apply Hfresh; now left).
    rewrite IH; [|assumption|].
    + cbn [fst snd]. unfold unresolved_spec. simpl filter.
      rewrite <- !app_assoc. f_equal. f_equal.
      now destruct (is_unresolved cs m kv).
    + cbn [fst]. intros k Hin. rewrite map_app, in_app_iff. simpl.
      intros [Himp|[<-|[]]]; [|contradiction].
      revert Himp. apply Hfresh. now right.
Qed.

Lemma close_context_spec (previous current : dict json) (ps cs : dict Z) (m : Z) :
  dict_get_default previous "scores" (JDict []) = scores_json ps ->
  dict_get_default current "scores" (JDict []) = scores_json cs ->
  NoDup (map fst ps) ->
  close_context_if_improved previous current m
  = Ok (recovery_result (improvements_spec ps cs, unresolved_spec ps cs m)).
Proof.
  intros Hprev Hcur Hnd. unfold close_context_if_improved.
  rewrite Hprev, Hcur. unfold scores_json at 1. cbn [py_items bind].
  rewrite close_loop; [reflexivity|assumption|].
  intros k _ [].
Qed.

Lemma unresolved_spec_In (ps cs : dict Z) (m : Z) (metric : string) (prev : Z) :
  NoDup (map fst ps) ->
  dict_get ps metric = Some prev ->
  In metric (unresolved_spec ps cs m) <-> is_unresolved cs m (metric, prev) = true.
Proof.
  intros Hnd Hget. unfold unresolved_spec. rewrite in_map_iff. split.
  - intros ([k z] & Hk & Hin). simpl in Hk. subst k.
    apply filter_In in Hin as [Hin Hun].
    rewrite (In_dict_get _ _ _ Hnd Hin) in Hget. now inversion Hget; subst.
  - intros Hun. exists (metric, prev). split; [reflexivity|].
    apply filter_In. split; [now apply dict_get_In|assumption].
Qed.

Lemma is_unresolved_iff (cs : dict Z) (m : Z) (metric : string) (prev : Z) :
  is_unresolved cs m (metric, prev) = true <->
  band_for_score prev <> "monitor" /\
  prev - dict_get_default cs metric prev < m /\
  band_for_score (dict_get_default cs metric prev) <> "monitor".
Proof.
  unfold is_unresolved, current_or_previous. cbn [fst snd].
  rewrite !andb_true_iff, !negb_true_iff, !String.eqb_neq, Z.ltb_lt. tauto.
Qed.

(** C1: for score maps of integers, a metric of the previous map is listed
    as unresolved exactly when its previous band is not monitor, its delta
    (previous minus current, the current score being the previous one when
    the metric is absent from the current map) is below [min_improvement],
    and its current band is not monitor; [resolved] says whether the list is
    empty and [nextAction] follows it.  The default threshold is 8. *)
Theorem close_context_unresolved (previous current : dict json)
    (ps cs : dict Z) (min_improvement : Z) :
  dict_get_default previous "scores" (JDict []) = scores_json ps ->
  dict_get_default current "scores" (JDict []) = scores_json cs ->
  NoDup (map fst ps) ->
  exists improvements unresolved,
    close_context_if_improved previous current min_improvement =
    Ok [("improvements", JDict improvements);
        ("resolved", JBool match unresolved with [] => true | _ => false end);
        ("unresolved", JList (map JStr unresolved));
        ("nextAction",
         JStr match unresolved with
              | [] => "exit-instinct-context"
              | _ => "continue-or-escalate"
              end)] /\
    (forall metric prev,
       dict_get ps metric = Some prev ->
       let cur := dict_get_default cs metric prev in
       In metric unresolved <->
       band_for_score prev <> "monitor" /\
       prev - cur < min_improvement /\
       band_for_score cur <> "monitor") /\
    (forall metric, In metric unresolved -> In metric (map fst ps)) /\
    default_min_improvement = 8.
Proof.
  intros Hprev Hcur Hnd.
  exists (improvements_spec ps cs), (unresolved_spec ps cs min_improvement).
  split; [|split; [|split]].
  - rewrite (close_context_spec previous current ps cs _ Hprev Hcur Hnd).
    unfold recovery_result. cbn [fst snd].
    now destruct (unresolved_spec ps cs min_improvement).
  - intros metric prev Hget cur. subst cur.
    rewrite (unresolved_spec_In ps cs _ metric prev Hnd Hget).
    apply is_unresolved_iff.
  - intros metric Hin. unfold unresolved_spec in Hin.
    apply in_map_iff in Hin as (kv & <- & Hin).
    apply filter_In in Hin as [Hin _]. now apply in_map.
  - reflexivity.
Qed.

(** C4: for score maps of integers, the improvements map has one entry per
    metric of the previous map, in its order, and no other; the entry is the
    previous score minus the current one, where a metric absent from the
    current map counts as unchanged (delta 0); no band enters the value. *)
Theorem close_context_improvements (previous current : dict json)
    (ps cs : dict Z) (min_improvement : Z) :
  dict_get_default previous "scores" (JDict []) = scores_json ps ->
  dict_get_default current "scores" (JDict []) = scores_json cs ->
  NoDup (map fst ps) ->
  exists res improvements,
    close_context_if_improved previous current min_improvement = Ok res /\
    dict_get res "improvements" = Some (JDict improvements) /\
    map fst improvements = map fst ps /\
    (forall metric prev,
       dict_get ps metric = Some prev ->
       dict_get improvements metric
       = Some (JInt (prev - dict_get_default cs metric prev))) /\
    (forall metric prev,
       dict_get ps metric = Some prev ->
       dict_get cs metric = None ->
       dict_get improvements metric = Some (JInt 0)) /\
    (forall metric,
       dict_get ps metric = None -> dict_get improvements metric = None).
Proof.
  intros Hprev Hcur Hnd.
  exists (recovery_result (improvements_spec ps cs, unresolved_spec ps cs min_improvement)),
         (improvements_spec ps cs).
  assert (Hget : forall metric,
             dict_get (improvements_spec ps cs) metric
             = option_map (fun prev => JInt (prev - dict_get_default cs metric prev))
                          (dict_get ps metric)).
  { intros metric. unfold improvements_spec, current_or_previous.
    clear. induction ps as [|[k z] ps IH]; simpl; [reflexivity|].
    destruct (String.eqb_spec k metric) as [->|Hne]; [reflexivity|exact IH]. }
  split; [|split; [|split; [|split; [|split]]]].
  - exact (close_context_spec previous current ps cs _ Hprev Hcur Hnd).
  - reflexivity.
  - unfold improvements_spec. rewrite map_map. reflexivity.
  - intros metric prev Hm. rewrite Hget, Hm. reflexivity.
  - intros metric prev Hm Hc. rewrite Hget, Hm. unfold dict_get_default.
    rewrite Hc. simpl. now rewrite Z.sub_diag.
  - intros metric Hm. rewrite Hget, Hm. reflexivity.
Qed.

(** C10: the comparator reads the scores as they are.  A previous score
    below 0 or above 100 matches no band, so [band_for_score] falls through to
    monitor, and the metric is not listed as unresolved whatever the current
    score and the threshold; its delta is still computed from the raw
    scores. *)
Theorem close_context_out_of_range (previous current : dict json)
    (ps cs : dict Z) (min_improvement : Z) (metric : string) (prev : Z) :
  dict_get_default previous "scores" (JDict []) = scores_json ps ->
  dict_get_default current "scores" (JDict []) = scores_json cs ->
  NoDup (map fst ps) ->
  dict_get ps metric = Some prev ->
  prev < 0 \/ 100 < prev ->
  (forall band, In band BANDS -> in_band band prev = false) /\
  band_for_score prev = "monitor" /\
  exists res improvements unresolved,
    close_context_if_improved previous current min_improvement = Ok res /\
    dict_get res "unresolved" = Some (JList (map JStr unresolved)) /\
    ~ In metric unresolved /\
    dict_get res "improvements" = Some (JDict improvements) /\
    dict_get improvements metric
    = Some (JInt (prev - dict_get_default cs metric prev)).
Proof.
  intros Hprev Hcur Hnd Hget Hout.
  assert (Hmon : band_for_score prev = "monitor").
  { destruct (String.eqb_spec (band_for_score prev) "monitor") as [H|H];
      [exact H|]. apply band_monitor_iff in H. lia. }
  split; [now apply band_fallback|]. split; [exact Hmon|].
  exists (recovery_result (improvements_spec ps cs, unresolved_spec ps cs min_improvement)),
         (improvements_spec ps cs), (unresolved_spec ps cs min_improvement).
  split; [exact (close_context_spec previous current ps cs _ Hprev Hcur Hnd)|].
  split; [reflexivity|]. split; [|split; [reflexivity|]].
  - rewrite (unresolved_spec_In ps cs _ metric prev Hnd Hget), is_unresolved_iff.
    intros [H _]. contradiction.
  - unfold improvements_spec, current_or_previous.
    clear -Hget. induction ps as [|[k z] ps IH]; simpl in *; [discriminate|].
    destruct (String.eqb_spec k metric) as [->|Hne].
    + now inversion Hget; subst.
    + auto.
Qed.

(* ================================================================== *)
(** ** Evaluator and the pipeline *)
(* ================================================================== *)

Section EvaluatorProperties.

(** The properties hold whatever [int] makes of a str. *)
Variable int_of_str : string -> option Z.

Lemma clamp_score_Ok (v : json) (r : Z) :
  clamp_score int_of_str v = Ok r -> 0 <= r <= 100.
Proof.
  unfold clamp_score. intros H.
  apply bind_Ok in H as (n & _ & H). inversion H. lia.
Qed.

Lemma clamp_score_int (v : Z) :
  clamp_score int_of_str (JInt v) = Ok (Z.max 0 (Z.min 100 v)).
Proof. reflexivity. Qed.

(** The comprehension yields a dict (one entry per key) of clamped scores,
    each the clamped value of some item of that key. *)
Lemma clamp_all_spec (items : dict json) (scores : dict Z) :
  clamp_all int_of_str items = Ok scores ->
  NoDup (map fst scores) /\
  Forall (fun kv => 0 <= snd kv <= 100) scores /\
  forall k z, In (k, z) scores ->
    exists v, In (k, v) items /\ clamp_score int_of_str v = Ok z.
Proof.
  unfold clamp_all.
  assert (Hgen : forall l acc out,
    foldM (fun scores kv =>
             s <- clamp_score int_of_str (snd kv) ;; Ok (dict_set scores (fst kv) s))
          l acc = Ok out ->
    NoDup (map fst acc) ->
    Forall (fun kv => 0 <= snd kv <= 100) acc ->
    (forall k z, In (k, z) acc -> exists v, In (k, v) (items : dict json) /\ clamp_score int_of_str v = Ok z) ->
    incl l items ->
    NoDup (map fst out) /\
    Forall (fun kv => 0 <= snd kv <= 100) out /\
    forall k z, In (k, z) out -> exists v, In (k, v) items /\ clamp_score int_of_str v = Ok z).
  { induction l as [|[k v] l IH]; simpl; intros acc out H Hnd Hr Hsrc Hincl.
    - inversion H; subst. auto.
    - apply bind_Ok in H as (acc' & H1 & H2).
      apply bind_Ok in H1 as (s & Hs & H1). inversion H1; subst acc'; clear H1.
      simpl in H2. apply (IH _ _ H2).
      + now apply dict_set_NoDup.
      + apply Forall_forall. intros [k' z'] Hin.
        apply dict_set_In in Hin as [[-> ->]|Hin]; simpl.
        * eapply clamp_score_Ok; eauto.
        * rewrite Forall_forall in Hr. exact (Hr _ Hin).
      + intros k' z' Hin.
        apply dict_set_In in Hin as [[-> ->]|Hin]; [|auto].
        exists v. split; [apply Hincl; now left|assumption].
      + intros x Hx. apply Hincl. now right. }
  intros H. apply (Hgen _ _ _ H); simpl.
  - constructor.
  - constructor.
  - intros ? ? [].
  - apply incl_refl.
Qed.

(** On a score map of integers the comprehension cannot raise and clamps
    entry by entry. *)
Lemma clamp_all_ints (zs : dict Z) :
  NoDup (map fst zs) ->
  clamp_all int_of_str (map (fun kv => (fst kv, JInt (snd kv))) zs) = Ok (clamped zs).
Proof.
  unfold clamp_all, clamped.
  assert (Hgen : forall l acc,
    NoDup (map fst l) ->
    (forall k, In k (map fst l) -> ~ In k (map fst acc)) ->
    foldM (fun scores kv =>
             s <- clamp_score int_of_str (snd kv) ;; Ok (dict_set scores (fst kv) s))
          (map (fun kv => (fst kv, JInt (snd kv))) l) acc
    = Ok (acc ++ map (fun kv => (fst kv, clamp (snd kv))) l)).
  { induction l as [|[k z] l IH]; simpl; intros acc Hnd Hfresh.
    - now rewrite app_nil_r.
    - inversion Hnd as [|? ? Hk Hnd']; subst.
      rewrite dict_set_fresh by (apply Hfresh; now left).
      rewrite IH; [now rewrite <- app_assoc|assumption|].
      intros k' Hk'. rewrite map_app, in_app_iff. simpl.
      intros [Hin|[<-|[]]]; [|contradiction].
      revert Hin. apply Hfresh. now right. }
  intros Hnd. apply (Hgen zs [] Hnd). intros ? ? [].
Qed.

(** The two ways [evaluate_child] returns. *)
Lemma evaluate_child_inv (state ev : dict json) :
  evaluate_child int_of_str state = Ok ev ->
  (truthy (dict_get_default state "child" JNull) = false /\
   ev = no_child_evaluation) \/
  (exists c items scores,
     dict_get_default state "child" JNull = JDict c /\
     c <> [] /\
     (if truthy (dict_get_default c "scores" JNull)
      then dict_get_default c "scores" JNull else JDict []) = JDict items /\
     clamp_all int_of_str items = Ok scores /\
     ev = [("hasChild", JBool true);
           ("status", JStr "ok");
           ("childId", dict_get_default c "id" JNull);
           ("stage", dict_get_default c "stage" JNull);
           ("scores", scores_json scores);
           ("events",
            JList (map event_json (sorted_desc ev_score (collect_events scores))))]).
Proof.
  unfold evaluate_child.
  destruct (truthy (dict_get_default state "child" JNull)) eqn:Ht; simpl.
  - intros H. right.
    destruct (dict_get_default state "child" JNull) as [| | | | |c];
      try discriminate H.
    simpl in H.
    apply bind_Ok in H as (items & Hitems & H).
    apply bind_Ok in H as (scores & Hscores & H).
    inversion H; subst ev; clear H.
    exists c, items, scores.
    destruct (if truthy (dict_get_default c "scores" JNull)
              then dict_get_default c "scores" JNull else JDict [])
      as [| | | | |d] eqn:Hraw; try discriminate Hitems.
    inversion Hitems; subst d.
    repeat split; try assumption.
    intros ->. discriminate Ht.
  - intros H. left. inversion H. auto.
Qed.

Lemma evaluate_child_ints (state c : dict json) (zs : dict Z) :
  dict_get state "child" = Some (JDict c) ->
  c <> [] ->
  dict_get c "scores" = Some (scores_json zs) ->
  NoDup (map fst zs) ->
  evaluate_child int_of_str state =
  Ok [("hasChild", JBool true);
      ("status", JStr "ok");
      ("childId", dict_get_default c "id" JNull);
      ("stage", dict_get_default c "stage" JNull);
      ("scores", scores_json (clamped zs));
      ("events",
       JList (map event_json (sorted_desc ev_score (collect_events (clamped zs)))))].
Proof.
  intros Hchild Hc Hscores Hnd.
  assert (Ht : truthy (JDict c) = true) by (destruct c; [congruence|reflexivity]).
  assert (Hraw : (if truthy (scores_json zs) then scores_json zs else JDict [])
                 = scores_json zs) by (destruct zs; reflexivity).
  unfold evaluate_child, py_get, dict_get_default.
  rewrite Hchild, Ht. cbn [negb bind]. rewrite Hscores, Hraw.
  unfold scores_json at 1. cbn [py_items bind].
  rewrite (clamp_all_ints zs Hnd). reflexivity.
Qed.

(** C3: when the child is truthy, the events of the evaluation are exactly
    the metrics of the clamped score map whose score is at least 40, one
    event each, the dict of its metric, that score and its band, none for a
    score of at most 39, largest score first.  On a child whose scores are a
    map of integers the evaluation exists and its score map is the clamped
    input. *)
Theorem evaluate_child_events (state : dict json) (child : json) :
  dict_get state "child" = Some child ->
  truthy child = true ->
  (forall c zs,
     child = JDict c ->
     dict_get c "scores" = Some (JDict (map (fun kv => (fst kv, JInt (snd kv))) zs)) ->
     NoDup (map fst zs) ->
     exists ev,
       evaluate_child int_of_str state = Ok ev /\
       dict_get ev "scores"
       = Some (JDict (map (fun kv => (fst kv, JInt (Z.max 0 (Z.min 100 (snd kv))))) zs))) /\
  (forall ev,
     evaluate_child int_of_str state = Ok ev ->
     exists scores evs,
       dict_get ev "scores"
       = Some (JDict (map (fun kv => (fst kv, JInt (snd kv))) scores)) /\
       dict_get ev "events"
       = Some (JList (map (fun e => JDict [("metric", JStr (ev_metric e));
                                           ("score", JInt (ev_score e));
                                           ("level", JStr (ev_level e))])
                          evs)) /\
       NoDup (map fst scores) /\
       (forall e,
          In e evs <->
          dict_get scores (ev_metric e) = Some (ev_score e) /\
          40 <= ev_score e /\
          ev_level e = band_for_score (ev_score e)) /\
       NoDup (map ev_metric evs) /\
       (forall metric score,
          dict_get scores metric = Some score -> score <= 39 ->
          ~ In metric (map ev_metric evs)) /\
       (forall e, In e evs -> ev_level e <> "monitor") /\
       StronglySorted (fun a b => ev_score b <= ev_score a) evs).
Proof.
  intros Hchild Htruthy. split.
  - intros c zs -> Hscores Hnd.
    assert (Hc : c <> []) by (intros ->; discriminate Htruthy).
    rewrite (evaluate_child_ints state c zs Hchild Hc Hscores Hnd).
    eexists. split; [reflexivity|].
    transitivity (Some (scores_json (clamped zs))); [reflexivity|].
    unfold scores_json, clamped, clamp. now rewrite map_map.
  - intros ev Hev.
    apply evaluate_child_inv in Hev as [[Hfalse _]|Hev].
    { unfold dict_get_default in Hfalse. rewrite Hchild in Hfalse. congruence. }
    destruct Hev as (c & items & scores & _ & _ & _ & Hclamp & ->).
    apply clamp_all_spec in Hclamp as (Hnd & Hrange & _).
    rewrite Forall_forall in Hrange.
    exists scores, (sorted_desc ev_score (collect_events scores)).
    assert (Hin : forall e,
      In e (sorted_desc ev_score (collect_events scores)) <->
      exists kv, In kv scores /\ flagged kv = true /\ e = event_of kv).
    { intros e. rewrite collect_events_filter. split.
      - intros H. apply (Permutation_in _ (Permutation_sym (sorted_desc_perm _ _))) in H.
        apply in_map_iff in H as (kv & <- & Hkv).
        apply filter_In in Hkv as [? ?]. eauto.
      - intros (kv & Hkv & Hfl & ->).
        apply (Permutation_in _ (sorted_desc_perm _ _)).
        apply in_map. apply filter_In. auto. }
    assert (Hflag : forall kv, In kv scores -> (flagged kv = true <-> 40 <= snd kv)).
    { intros kv Hkv. unfold flagged. rewrite band_monitor_eqb, negb_involutive.
      rewrite andb_true_iff, !Z.leb_le. specialize (Hrange _ Hkv). simpl in Hrange. lia. }
    split; [reflexivity|]. split; [reflexivity|]. split; [assumption|].
    split; [|split; [|split; [|split]]].
    + intros e. rewrite Hin. split.
      * intros ([k z] & Hkv & Hfl & ->). simpl.
        split; [now apply In_dict_get|].
        split; [|reflexivity]. now apply (Hflag _ Hkv).
      * intros (Hget & Hge & Hlevel). apply dict_get_In in Hget.
        exists (ev_metric e, ev_score e). split; [assumption|].
        split; [now apply (Hflag _ Hget)|].
        destruct e; simpl in *. now subst.
    + apply (Permutation_NoDup (Permutation_map ev_metric (sorted_desc_perm ev_score _))).
      rewrite collect_events_filter, map_map. simpl.
      clear -Hnd. induction scores as [|kv scores IH]; simpl; [constructor|].
      inversion Hnd as [|? ? Hk Hnd']; subst.
      destruct (flagged kv); simpl; [|auto].
      constructor; [|auto].
      intros Hin. apply Hk. apply in_map_iff in Hin as (kv' & Heq & Hin).
      apply filter_In in Hin as [Hin _]. rewrite <- Heq. now apply in_map.
    + intros metric score Hget Hle Hin'.
      apply in_map_iff in Hin' as (e & <- & He).
      apply Hin in He as ([k z] & Hkv & Hfl & ->). simpl in Hget.
      apply (Hflag _ Hkv) in Hfl. simpl in Hfl.
      rewrite (In_dict_get _ _ _ Hnd Hkv) in Hget. inversion Hget. lia.
    + intros e He. apply Hin in He as ([k z] & Hkv & Hfl & ->). simpl.
      unfold flagged in Hfl. simpl in Hfl.
      apply negb_true_iff in Hfl. now apply String.eqb_neq.
    + apply sorted_desc_sorted.
Qed.

(** C8: on every integer [clamp_score] is [max 0 (min 100 v)], lands in
    [0,100] and leaves a score of [0,100] unchanged; whatever it accepts, its
    result is in [0,100]; hence every score of the score map of an evaluation,
    and every event score, lies in [0,100]. *)
Theorem clamp_score_range :
  (forall v : Z,
     clamp_score int_of_str (JInt v) = Ok (Z.max 0 (Z.min 100 v)) /\
     0 <= Z.max 0 (Z.min 100 v) <= 100) /\
  (forall v : Z, 0 <= v <= 100 -> clamp_score int_of_str (JInt v) = Ok v) /\
  (forall (v : json) (r : Z), clamp_score int_of_str v = Ok r -> 0 <= r <= 100) /\
  (forall state ev scores,
     evaluate_child int_of_str state = Ok ev ->
     dict_get ev "scores" = Some scores ->
     exists zs, scores = scores_json zs /\
                forall metric score, In (metric, score) zs -> 0 <= score <= 100) /\
  (forall state ev,
     evaluate_child int_of_str state = Ok ev ->
     exists evs, dict_get ev "events" = Some (JList (map event_json evs)) /\
                 forall e, In e evs -> 0 <= ev_score e <= 100).
Proof.
  split; [|split; [|split; [|split]]].
  - intros v. split; [reflexivity|lia].
  - intros v Hv. rewrite clamp_score_int. f_equal. lia.
  - apply clamp_score_Ok.
  - intros state ev scores Hev Hget.
    apply evaluate_child_inv in Hev as [[_ ->]|Hev]; [discriminate Hget|].
    destruct Hev as (c & items & zs & _ & _ & _ & Hclamp & ->).
    simpl in Hget. inversion Hget; subst scores.
    exists zs. split; [reflexivity|].
    apply clamp_all_spec in Hclamp as (_ & Hrange & _).
    rewrite Forall_forall in Hrange.
    intros metric score Hin. exact (Hrange _ Hin).
  - intros state ev Hev.
    apply evaluate_child_inv in Hev as [[_ ->]|Hev].
    { exists []. split; [reflexivity|]. intros ? []. }
    destruct Hev as (c & items & zs & _ & _ & _ & Hclamp & ->).
    eexists. split; [reflexivity|].
    apply clamp_all_spec in Hclamp as (_ & Hrange & _).
    rewrite Forall_forall in Hrange.
    intros e He.
    apply (Permutation_in _ (Permutation_sym (sorted_desc_perm _ _))) in He.
    rewrite collect_events_filter in He.
    apply in_map_iff in He as (kv & <- & Hkv).
    apply filter_In in Hkv as [Hkv _]. exact (Hrange _ Hkv).
Qed.

(** C9: when the child field is absent or falsy, [evaluate_child] does not
    raise and returns exactly the four-field no-child evaluation, which has
    no score map, child id or stage. *)
Theorem evaluate_child_no_child (state : dict json) :
  dict_get state "child" = None \/
  (exists child, dict_get state "child" = Some child /\ truthy child = false) ->
  evaluate_child int_of_str state =
  Ok [("hasChild", JBool false);
      ("status", JStr "no-child");
      ("message", JStr "No child generated yet. Parenting instincts stay inactive.");
      ("events", JList [])] /\
  forall ev, evaluate_child int_of_str state = Ok ev ->
    map fst ev = ["hasChild"; "status"; "message"; "events"] /\
    dict_get ev "scores" = None /\
    dict_get ev "childId" = None /\
    dict_get ev "stage" = None.
Proof.
  intros H.
  assert (Hev : evaluate_child int_of_str state = Ok no_child_evaluation).
  { unfold evaluate_child, dict_get_default.
    destruct H as [->|(child & -> & ->)]; reflexivity. }
  split; [exact Hev|].
  intros ev Hev'. rewrite Hev in Hev'. inversion Hev'. repeat split.
Qed.

(** C5: the three cases of [build_instinct_plan], in order: no child gives
    the disabled no-child plan; a child with no events gives the enabled
    stable plan, both with empty crons and suggestions; otherwise the plan is
    enabled with reason threshold-crossed.  On an evaluation that
    [evaluate_child] produced, a non-empty events list always reaches the
    third case. *)
Theorem build_instinct_plan_cases (now : string) (ev : dict json) :
  (truthy (dict_get_default ev "hasChild" JNull) = false ->
   build_instinct_plan now ev =
   Ok [("enabled", JBool false); ("reason", JStr "no-child");
       ("crons", JList []); ("suggestions", JList [])]) /\
  (truthy (dict_get_default ev "hasChild" JNull) = true ->
   truthy (dict_get_default ev "events" (JList [])) = false ->
   build_instinct_plan now ev =
   Ok [("enabled", JBool true); ("reason", JStr "stable");
       ("crons", JList []); ("suggestions", JList [])]) /\
  (truthy (dict_get_default ev "hasChild" JNull) = true ->
   forall evs views,
     dict_get ev "events" = Some (JList evs) ->
     evs <> [] ->
     map event_view evs = map Some views ->
     exists suggestions,
       build_instinct_plan now ev =
       Ok [("enabled", JBool true); ("reason", JStr "threshold-crossed");
           ("crons", JList (crons now)); ("suggestions", JList suggestions)]) /\
  (truthy (dict_get_default ev "hasChild" JNull) = true ->
   truthy (dict_get_default ev "events" (JList [])) = true ->
   forall p,
     build_instinct_plan now ev = Ok p ->
     dict_get p "enabled" = Some (JBool true) /\
     dict_get p "reason" = Some (JStr "threshold-crossed")) /\
  (forall state e rest,
     evaluate_child int_of_str state = Ok ev ->
     dict_get ev "events" = Some (JList (e :: rest)) ->
     exists suggestions,
       build_instinct_plan now ev =
       Ok [("enabled", JBool true); ("reason", JStr "threshold-crossed");
           ("crons", JList (crons now)); ("suggestions", JList suggestions)]).
Proof.
  split; [|split; [|split; [|split]]].
  - intros Hchild. unfold build_instinct_plan. now rewrite Hchild.
  - intros Hchild Hevents. unfold build_instinct_plan.
    now rewrite Hchild, Hevents.
  - intros Hchild evs views Hevents Hne Hviews.
    exists (suggestions_spec views).
    exact (build_plan_threshold now ev evs views Hchild Hevents Hne Hviews).
  - intros Hchild Hevents p Hp.
    destruct (build_plan_threshold_inv now ev p Hchild Hevents Hp) as (sg & ->).
    split; reflexivity.
  - intros state e rest Hev Hevents.
    apply evaluate_child_inv in Hev as [[_ ->]|Hev]; [discriminate Hevents|].
    destruct Hev as (c & items & scores & _ & _ & _ & _ & ->).
    eexists.
    eapply build_plan_threshold.
    + reflexivity.
    + reflexivity.
    + simpl in Hevents. inversion Hevents as [Heq]. rewrite Heq. discriminate.
    + apply event_view_event_json.
Qed.

End EvaluatorProperties.

(* ================================================================== *)
(** ** The properties at the sample documents *)
(* ================================================================== *)

(** The documented cases, run through the model. *)

Example evaluate_stable :
  (ev <- evaluate_child no_str_scores
           [("child", JDict [("id", JStr "c1");
                             ("scores", JDict [("fear", JInt 10); ("hunger", JInt 5)])])] ;;
   build_instinct_plan "2026-01-01T00:00:00+00:00" ev)
  = Ok [("enabled", JBool true); ("reason", JStr "stable");
        ("crons", JList []); ("suggestions", JList [])].
Proof. reflexivity. Qed.

Example evaluate_threshold_crossed :
  evaluate_child no_str_scores sample_state = Ok sample_evaluation.
Proof. reflexivity. Qed.

Example evaluate_both_actors :
  (ev <- evaluate_child no_str_scores
           [("child", JDict [("scores", JDict [("protection", JInt 75)])])] ;;
   p <- build_instinct_plan "2026-01-01T00:00:00+00:00" ev ;;
   Ok (dict_get p "suggestions"))
  = Ok (Some (JList [suggestion "parentA" "protection" (JStr "active")
                       "Provide emotional safety and reassure child it is not alone.";
                     suggestion "parentB" "protection" (JStr "active")
                       "Apply practical safeguards, boundaries, and contingency plan."])).
Proof. reflexivity. Qed.

Example evaluate_clamps_and_orders :
  (ev <- evaluate_child no_str_scores
           [("child", JDict [("scores", JDict [("anger", JInt 50); ("hunger", JInt (-3));
                                               ("learning", JInt 50); ("fear", JInt 175)])])] ;;
   Ok (dict_get ev "scores", dict_get ev "events"))
  = Ok (Some (scores_json [("anger", 50); ("hunger", 0); ("learning", 50); ("fear", 100)]),
        Some (JList (map event_json [mkEvent "fear" 100 "urgent";
                                     mkEvent "anger" 50 "soft";
                                     mkEvent "learning" 50 "soft"]))).
Proof. reflexivity. Qed.

Example evaluate_rejects_non_dict_child :
  evaluate_child no_str_scores [("child", JInt 5)] = Raise AttributeError.
Proof. reflexivity. Qed.

Example recovery_resolved :
  close_context_if_improved sample_previous [("scores", scores_json [("fear", 10)])]
    default_min_improvement
  = Ok [("improvements", JDict [("fear", JInt 80)]);
        ("resolved", JBool true);
        ("unresolved", JList []);
        ("nextAction", JStr "exit-instinct-context")].
Proof. reflexivity. Qed.

Example recovery_unresolved :
  close_context_if_improved sample_previous sample_current default_min_improvement
  = Ok [("improvements", JDict [("fear", JInt 3)]);
        ("resolved", JBool false);
        ("unresolved", JList [JStr "fear"]);
        ("nextAction", JStr "continue-or-escalate")].
Proof. reflexivity. Qed.

Example recovery_out_of_range :
  close_context_if_improved sample_overflow [("scores", scores_json [("fear", 149)])]
    default_min_improvement
  = Ok [("improvements", JDict [("fear", JInt 1)]);
        ("resolved", JBool true);
        ("unresolved", JList []);
        ("nextAction", JStr "exit-instinct-context")].
Proof. reflexivity. Qed.

Ltac distinct_keys :=
  repeat (apply NoDup_cons; [simpl; intuition discriminate|]); apply NoDup_nil.

Lemma band_for_score_partition_witness :
  band_for_score 40 = "soft" <-> 40 <= 40 <= 69.
Proof.
  exact (proj1 (proj2 (proj1 band_for_score_partition 40 ltac:(lia)))).
Defined.

Lemma evaluate_child_events_witness :
  exists ev,
    evaluate_child no_str_scores sample_state = Ok ev /\
    dict_get ev "scores" = Some (JDict [("fear", JInt 90); ("learning", JInt 50)]).
Proof.
  refine (proj1 (evaluate_child_events no_str_scores sample_state
                   (JDict sample_child) _ _)
                sample_child sample_scores _ _ _).
  - reflexivity.
  - reflexivity.
  - reflexivity.
  - reflexivity.
  - distinct_keys.
Defined.

Lemma clamp_score_range_witness :
  clamp_score no_str_scores (JInt 40) = Ok 40.
Proof.
  exact (proj1 (proj2 (clamp_score_range no_str_scores)) 40 ltac:(lia)).
Defined.

Lemma evaluate_child_no_child_witness :
  evaluate_child no_str_scores [("child", JNull)] =
  Ok [("hasChild", JBool false);
      ("status", JStr "no-child");
      ("message", JStr "No child generated yet. Parenting instincts stay inactive.");
      ("events", JList [])].
Proof.
  refine (proj1 (evaluate_child_no_child no_str_scores [("child", JNull)] _)).
  right. exists JNull. split; reflexivity.
Defined.

Lemma build_instinct_plan_cases_witness :
  exists suggestions,
    build_instinct_plan "2026-01-01T00:00:00+00:00" sample_evaluation =
    Ok [("enabled", JBool true); ("reason", JStr "threshold-crossed");
        ("crons", JList (crons "2026-01-01T00:00:00+00:00"));
        ("suggestions", JList suggestions)].
Proof.
  refine (proj1 (proj2 (proj2
            (build_instinct_plan_cases no_str_scores
               "2026-01-01T00:00:00+00:00" sample_evaluation)))
            _ (map event_json sample_events) sample_views _ _ _).
  - reflexivity.
  - reflexivity.
  - discriminate.
  - reflexivity.
Defined.

Lemma build_instinct_plan_suggestions_witness :
  exists p,
    build_instinct_plan "2026-01-01T00:00:00+00:00" sample_evaluation = Ok p /\
    dict_get p "suggestions" = Some (JList (flat_map event_suggestions sample_views)).
Proof.
  refine (proj1 (build_instinct_plan_suggestions
                   "2026-01-01T00:00:00+00:00" sample_evaluation
                   (map event_json sample_events) sample_views _ _ _ _)).
  - reflexivity.
  - reflexivity.
  - discriminate.
  - reflexivity.
Defined.

Lemma build_instinct_plan_crons_witness :
  exists p,
    build_instinct_plan "2026-01-01T00:00:00+00:00" sample_evaluation = Ok p /\
    dict_get p "crons" = Some (JList (crons "2026-01-01T00:00:00+00:00")).
Proof.
  refine (proj1 (proj2 (build_instinct_plan_crons
                          "2026-01-01T00:00:00+00:00" sample_evaluation _ _))
                (map event_json sample_events) sample_views _ _).
  - reflexivity.
  - reflexivity.
  - reflexivity.
  - reflexivity.
Defined.

Lemma close_context_unresolved_witness :
  exists improvements unresolved,
    close_context_if_improved sample_previous sample_current 8 =
    Ok [("improvements", JDict improvements);
        ("resolved", JBool match unresolved with [] => true | _ => false end);
        ("unresolved", JList (map JStr unresolved));
        ("nextAction",
         JStr match unresolved with
              | [] => "exit-instinct-context"
              | _ => "continue-or-escalate"
              end)] /\
    In "fear" unresolved.
Proof.
  destruct (close_context_unresolved sample_previous sample_current
              [("fear", 90)] [("fear", 87)] 8)
    as (improvements & unresolved & Hres & Hiff & _).
  - reflexivity.
  - reflexivity.
  - distinct_keys.
  - exists improvements, unresolved. split; [exact Hres|].
    apply (Hiff "fear" 90 eq_refl). simpl.
    split; [discriminate|]. split; [lia|discriminate].
Defined.

Lemma close_context_improvements_witness :
  exists res improvements,
    close_context_if_improved sample_previous sample_current 8 = Ok res /\
    dict_get res "improvements" = Some (JDict improvements) /\
    dict_get improvements "fear" = Some (JInt 3).
Proof.
  destruct (close_context_improvements sample_previous sample_current
              [("fear", 90)] [("fear", 87)] 8)
    as (res & improvements & Hres & Himp & _ & Hdelta & _).
  - reflexivity.
  - reflexivity.
  - distinct_keys.
  - exists res, improvements. split; [exact Hres|]. split; [exact Himp|].
    exact (Hdelta "fear" 90 eq_refl).
Defined.

Lemma close_context_out_of_range_witness :
  band_for_score 150 = "monitor" /\
  exists res improvements unresolved,
    close_context_if_improved sample_overflow sample_overflow 8 = Ok res /\
    dict_get res "unresolved" = Some (JList (map JStr unresolved)) /\
    ~ In "fear" unresolved /\
    dict_get res "improvements" = Some (JDict improvements) /\
    dict_get improvements "fear" = Some (JInt (150 - 150)).
Proof.
  refine (proj2 (close_context_out_of_range sample_overflow sample_overflow
                   [("fear", 150)] [("fear", 150)] 8 "fear" 150 _ _ _ _ _)).
  - reflexivity.
  - reflexivity.
  - distinct_keys.
  - reflexivity.
  - right. lia.
Defined.

(* ================================================================== *)
(** ** Further properties: sort, bands, plan builder *)
(* ================================================================== *)

Lemma insert_desc_filter {A : Type} (key : A -> Z) (s : Z) (x : A) (l : list A) :
  filter (fun e => key e =? s) (insert_desc key x l)
  = filter (fun e => key e =? s) (x :: l).
Proof.
  induction l as [|y l IH]; simpl; [reflexivity|].
  destruct (Z.ltb_spec (key x) (key y)) as [Hlt|Hge]; [|reflexivity].
  simpl. rewrite IH. simpl.
  destruct (Z.eqb_spec (key x) s); destruct (Z.eqb_spec (key y) s);
    try reflexivity; lia.
Qed.

(** The sort is stable: the elements of any one key keep their order. *)
Lemma sorted_desc_stable {A : Type} (key : A -> Z) (s : Z) (l : list A) :
  filter (fun e => key e =? s) (sorted_desc key l) = filter (fun e => key e =? s) l.
Proof.
  induction l as [|x l IH]; simpl; [reflexivity|].
  rewrite insert_desc_filter. simpl. now rewrite IH.
Qed.

Lemma band_of_range (v : Z) :
  0 <= v <= 100 ->
  (0 <= v <= 39 /\ band_for_score v = "monitor") \/
  (40 <= v <= 69 /\ band_for_score v = "soft") \/
  (70 <= v <= 84 /\ band_for_score v = "active") \/
  (85 <= v <= 100 /\ band_for_score v = "urgent").
Proof. intros Hv. band_cases v; auto 10. Qed.

(** X5: after clamping, a larger score never gets a lower band: the position
    of the band in the table grows with the raw score. *)
Theorem severity_monotone (v w : Z) :
  v <= w ->
  (severity (band_for_score (clamp v)) <= severity (band_for_score (clamp w)))%nat.
Proof.
  intros Hvw.
  assert (Hv : 0 <= clamp v <= 100) by (unfold clamp; lia).
  assert (Hw : 0 <= clamp w <= 100) by (unfold clamp; lia).
  assert (Hle : clamp v <= clamp w) by (unfold clamp; lia).
  destruct (band_of_range _ Hv) as [[Rv Ev]|[[Rv Ev]|[[Rv Ev]|[Rv Ev]]]];
    destruct (band_of_range _ Hw) as [[Rw Ew]|[[Rw Ew]|[[Rw Ew]|[Rw Ew]]]];
    rewrite Ev, Ew; unfold severity; simpl; lia.
Qed.

Lemma suggest_hashable (actor : string) (metric level : json) (acc : list json)
    (table : dict string) :
  dict_get PARENT_ACTIONS actor = Some table ->
  suggest actor metric level acc
  = if hashable metric
    then Ok (acc ++ match metric with
                    | JStr m => actor_suggestion actor m level
                    | _ => []
                    end)
    else Raise TypeError.
Proof.
  intros Htable. destruct metric as [|b|z|m|l|d]; simpl hashable; cbv iota.
  4: exact (suggest_spec actor m level acc table Htable).
  all: unfold suggest, dict_item; rewrite Htable; cbn [bind py_in];
    rewrite ?app_nil_r; reflexivity.
Qed.

Lemma suggest_event_result (acc : list json) (ev : json) :
  suggest_event acc ev
  = match event_error ev with
    | Some e => Raise e
    | None => Ok (acc ++ json_suggestions ev)
    end.
Proof.
  destruct ev as [| | | | |d]; try reflexivity.
  unfold suggest_event, event_error, json_suggestions, py_subscript, dict_item.
  destruct (dict_get d "metric") as [metric|]; [|reflexivity].
  destruct (dict_get d "level") as [level|]; [|reflexivity].
  cbn [bind].
  rewrite (suggest_hashable "parentA" metric level acc _ eq_refl).
  destruct (hashable metric) eqn:Hh; [|reflexivity]. cbn [bind].
  rewrite (suggest_hashable "parentB" metric level _ _ eq_refl), Hh.
  rewrite <- app_assoc.
  destruct metric; try discriminate Hh; reflexivity.
Qed.

(** The loop stops at the first event it cannot handle. *)
Lemma suggest_loop_result (evs : list json) (acc : list json) :
  foldM suggest_event evs acc
  = match first_error evs with
    | Some e => Raise e
    | None => Ok (acc ++ flat_map json_suggestions evs)
    end.
Proof.
  revert acc. induction evs as [|ev evs IH]; intros acc; simpl.
  - now rewrite app_nil_r.
  - rewrite suggest_event_result.
    destruct (event_error ev); [reflexivity|]. cbn [bind].
    rewrite IH. destruct (first_error evs); [reflexivity|].
    now rewrite app_assoc.
Qed.

Lemma build_plan_events (now : string) (ev : dict json) (evs : list json) :
  truthy (dict_get_default ev "hasChild" JNull) = true ->
  dict_get_default ev "events" (JList []) = JList evs ->
  evs <> [] ->
  build_instinct_plan now ev =
  match first_error evs with
  | Some e => Raise e
  | None => Ok (plan true "threshold-crossed" (crons now)
                  (flat_map json_suggestions evs))
  end.
Proof.
  intros Hchild Hevents Hne. unfold build_instinct_plan.
  rewrite Hchild, Hevents. cbn [negb].
  destruct evs as [|e rest]; [congruence|]. cbn [truthy negb py_iter bind].
  rewrite suggest_loop_result. now destruct (first_error (e :: rest)).
Qed.

(** X6: with a child and a truthy events value, [build_instinct_plan]
    returns exactly when the events are a list of dicts that each have a
    metric and a level with a hashable metric; otherwise it raises the
    exception of the first event that fails ([TypeError] for a non-dict or an
    unhashable metric, [KeyError] for a missing field), and [TypeError] when
    the events value is not a list at all. *)
Theorem build_instinct_plan_result (now : string) (ev : dict json) :
  truthy (dict_get_default ev "hasChild" JNull) = true ->
  truthy (dict_get_default ev "events" (JList [])) = true ->
  (forall evs,
     dict_get_default ev "events" (JList []) = JList evs ->
     build_instinct_plan now ev =
     match first_error evs with
     | Some e => Raise e
     | None =>
         Ok [("enabled", JBool true); ("reason", JStr "threshold-crossed");
             ("crons", JList (crons now));
             ("suggestions", JList (flat_map json_suggestions evs))]
     end) /\
  ((forall evs, dict_get_default ev "events" (JList []) <> JList evs) ->
   build_instinct_plan now ev = Raise TypeError).
Proof.
  intros Hchild Hevents. unfold build_instinct_plan.
  rewrite Hchild, Hevents. cbn [negb]. split.
  - intros evs ->. cbn [py_iter bind]. rewrite suggest_loop_result.
    now destruct (first_error evs).
  - intros Hnot.
    destruct (dict_get_default ev "events" (JList [])) as [|b|z|s|l|d];
      try reflexivity.
    + destruct s as [|c s]; [discriminate Hevents|reflexivity].
    + exfalso. now apply (Hnot l).
    + destruct d as [|[k v] d]; [discriminate Hevents|reflexivity].
Qed.

Lemma actor_suggestion_In (actor metric : string) (level s : json) :
  In s (actor_suggestion actor metric level) ->
  exists action,
    dict_get (actions_of actor) metric = Some action /\
    s = suggestion actor metric level action.
Proof.
  unfold actor_suggestion.
  destruct (dict_get (actions_of actor) metric) as [action|]; [|intros []].
  intros [<-|[]]. eauto.
Qed.

Lemma event_suggestions_length (view : string * json) :
  (List.length (event_suggestions view) <= 2)%nat.
Proof.
  unfold event_suggestions, actor_suggestion. rewrite length_app.
  destruct (dict_get (actions_of "parentA") (fst view));
    destruct (dict_get (actions_of "parentB") (fst view)); simpl; lia.
Qed.

Lemma event_suggestions_nil (metric : string) (level : json) :
  event_suggestions (metric, level) = [] <-> known_metric metric = false.
Proof.
  unfold event_suggestions, actor_suggestion, known_metric, dict_mem. simpl fst.
  destruct (dict_get (actions_of "parentA") metric);
    destruct (dict_get (actions_of "parentB") metric); simpl;
    split; intros H; try reflexivity; discriminate H.
Qed.

Lemma known_metric_table (metric : string) :
  known_metric metric = true <->
  In metric ["fear"; "anger"; "bonding"; "protection"; "learning"; "hunger"].
Proof.
  unfold known_metric, dict_mem.
  let a := eval vm_compute in (actions_of "parentA") in
  change (actions_of "parentA") with a.
  let b := eval vm_compute in (actions_of "parentB") in
  change (actions_of "parentB") with b.
  cbn [dict_get].
  destruct (String.eqb_spec "fear" metric) as [<-|H1];
    [split; [intros _; simpl; auto 10|reflexivity]|].
  destruct (String.eqb_spec "anger" metric) as [<-|H2];
    [split; [intros _; simpl; auto 10|reflexivity]|].
  destruct (String.eqb_spec "bonding" metric) as [<-|H3];
    [split; [intros _; simpl; auto 10|reflexivity]|].
  destruct (String.eqb_spec "protection" metric) as [<-|H4];
    [split; [intros _; simpl; auto 10|reflexivity]|].
  destruct (String.eqb_spec "learning" metric) as [<-|H5];
    [split; [intros _; simpl; auto 10|reflexivity]|].
  destruct (String.eqb_spec "hunger" metric) as [<-|H6];
    [split; [intros _; simpl; auto 10|reflexivity]|].
  split; [discriminate|].
  intros [H|[H|[H|[H|[H|[H|[]]]]]]]; congruence.
Qed.

Lemma first_error_None (evs : list json) :
  first_error evs = None <-> forall ev, In ev evs -> event_error ev = None.
Proof.
  induction evs as [|ev evs IH]; simpl.
  - split; [intros _ ? []|reflexivity].
  - destruct (event_error ev) eqn:He.
    + split; [discriminate|]. intros H. rewrite <- He. apply H. now left.
    + rewrite IH. split.
      * intros H ev' [<-|Hin]; auto.
      * intros H ev' Hin. apply H. now right.
Qed.

(** X7: the suggestions of a plan never go beyond the events and the two
    action tables: there are at most two per event; each one is the record of
    parentA or parentB for the metric and level of some event, with that
    actor's action for the metric, and the metric is one of the six the
    tables know; the list is empty exactly when no event has a known metric,
    so a plan can be threshold-crossed and suggest nothing. *)
Theorem plan_suggestions_sound (now : string) (ev p : dict json) (evs : list json) :
  truthy (dict_get_default ev "hasChild" JNull) = true ->
  dict_get_default ev "events" (JList []) = JList evs ->
  evs <> [] ->
  build_instinct_plan now ev = Ok p ->
  exists sg,
    dict_get p "suggestions" = Some (JList sg) /\
    dict_get p "reason" = Some (JStr "threshold-crossed") /\
    (List.length sg <= 2 * List.length evs)%nat /\
    (forall s, In s sg ->
       exists actor metric level action d,
         s = suggestion actor metric level action /\
         (actor = "parentA" \/ actor = "parentB") /\
         dict_get (actions_of actor) metric = Some action /\
         In metric ["fear"; "anger"; "bonding"; "protection"; "learning"; "hunger"] /\
         In (JDict d) evs /\
         dict_get d "metric" = Some (JStr metric) /\
         dict_get d "level" = Some level) /\
    (sg = [] <->
     forall d metric,
       In (JDict d) evs -> dict_get d "metric" = Some (JStr metric) ->
       known_metric metric = false).
Proof.
  intros Hchild Hevents Hne Hp.
  rewrite (build_plan_events now ev evs Hchild Hevents Hne) in Hp.
  destruct (first_error evs) eqn:Herr; [discriminate Hp|].
  inversion Hp; subst p; clear Hp.
  rewrite first_error_None in Herr.
  exists (flat_map json_suggestions evs).
  split; [reflexivity|]. split; [reflexivity|]. split; [|split].
  - clear. induction evs as [|e evs IH]; simpl; [lia|].
    rewrite length_app.
    assert (List.length (json_suggestions e) <= 2)%nat; [|lia].
    unfold json_suggestions. destruct e as [| | | | |d]; simpl; try lia.
    destruct (dict_get d "metric") as [[| | |m| |]|]; simpl; try lia.
    destruct (dict_get d "level"); simpl; try lia.
    apply event_suggestions_length.
  - intros s Hs. apply in_flat_map in Hs as (e & He & Hs).
    unfold json_suggestions in Hs.
    destruct e as [| | | | |d]; try contradiction.
    destruct (dict_get d "metric") as [[| | |m| |]|] eqn:Hm; try contradiction.
    destruct (dict_get d "level") as [level|] eqn:Hl; try contradiction.
    unfold event_suggestions in Hs. simpl fst in Hs. simpl snd in Hs.
    apply in_app_iff in Hs as [Hs|Hs];
      apply actor_suggestion_In in Hs as (action & Hact & ->).
    + exists "parentA", m, level, action, d.
      repeat split; auto. apply known_metric_table.
      unfold known_metric, dict_mem. now rewrite Hact.
    + exists "parentB", m, level, action, d.
      repeat split; auto. apply known_metric_table.
      unfold known_metric, dict_mem. rewrite Hact. apply orb_true_r.
  - split.
    + intros Hnil d metric Hin Hm.
      assert (Hj : json_suggestions (JDict d) = []).
      { clear -Hnil Hin. induction evs as [|e evs IH]; [contradiction|].
        simpl in Hnil. apply app_eq_nil in Hnil as [H1 H2].
        destruct Hin as [->|Hin]; auto. }
      specialize (Herr _ Hin). unfold event_error in Herr.
      unfold json_suggestions in Hj. rewrite Hm in *.
      destruct (dict_get d "level") as [level|]; [|discriminate Herr].
      now apply (event_suggestions_nil metric level).
    + intros Hall. clear -Hall.
      induction evs as [|e evs IH]; [reflexivity|]. simpl.
      rewrite IH by (intros d m Hin; apply Hall; now right).
      rewrite app_nil_r. unfold json_suggestions.
      destruct e as [| | | | |d]; try reflexivity.
      destruct (dict_get d "metric") as [[| | |m| |]|] eqn:Hm; try reflexivity.
      destruct (dict_get d "level") as [level|]; [|reflexivity].
      apply event_suggestions_nil. apply (Hall d m); [now left|assumption].
Qed.

(* ================================================================== *)
(** ** Further properties: recovery comparator *)
(* ================================================================== *)

Lemma integer_valued_as_num (v : json) :
  integer_valued v = true -> exists z, as_num v = Ok z.
Proof. destruct v; simpl; intros H; try discriminate H; eauto. Qed.

Lemma not_a_number_as_num (v : json) :
  not_a_number v = true -> as_num v = Raise TypeError.
Proof. destruct v; simpl; intros H; try discriminate H; reflexivity. Qed.

Lemma as_num_result (v : json) :
  (exists z, as_num v = Ok z) \/ as_num v = Raise TypeError.
Proof. destruct v; simpl; eauto. Qed.

Lemma close_step_integers (cd : dict json) (m : Z) (st : recovery_state)
    (kv : string * json) :
  integer_pair cd kv = true ->
  exists st', close_step (JDict cd) m st kv = Ok st'.
Proof.
  unfold integer_pair, close_step, py_get_default. cbn [bind].
  rewrite andb_true_iff. intros [Hp Hc].
  destruct (integer_valued_as_num _ Hp) as (p & ->).
  destruct (integer_valued_as_num _ Hc) as (c & ->). cbn [bind].
  destruct (negb (String.eqb (band_for_score p) "monitor") && (p - c <? m)
            && negb (String.eqb (band_for_score c) "monitor")); eauto.
Qed.

Lemma close_step_not_a_number (cd : dict json) (m : Z) (st : recovery_state)
    (kv : string * json) :
  not_a_number (snd kv) = true \/
  not_a_number (dict_get_default cd (fst kv) (snd kv)) = true ->
  close_step (JDict cd) m st kv = Raise TypeError.
Proof.
  unfold close_step, py_get_default. cbn [bind]. intros [Hp|Hc].
  - now rewrite (not_a_number_as_num _ Hp).
  - rewrite (not_a_number_as_num _ Hc).
    destruct (as_num_result (snd kv)) as [(p & ->) | ->]; reflexivity.
Qed.

Lemma close_loop_integers (cd : dict json) (m : Z) (items : dict json)
    (st : recovery_state) :
  forallb (integer_pair cd) items = true ->
  exists st', foldM (close_step (JDict cd) m) items st = Ok st'.
Proof.
  revert st. induction items as [|kv items IH]; intros st; simpl.
  - eauto.
  - rewrite andb_true_iff. intros [Hkv Hrest].
    destruct (close_step_integers cd m st kv Hkv) as (st' & ->). cbn [bind].
    now apply IH.
Qed.

Lemma close_loop_not_a_number (cd : dict json) (m : Z)
    (l1 l2 : dict json) (kv : string * json) (st : recovery_state) :
  forallb (integer_pair cd) l1 = true ->
  not_a_number (snd kv) = true \/
  not_a_number (dict_get_default cd (fst kv) (snd kv)) = true ->
  foldM (close_step (JDict cd) m) (l1 ++ kv :: l2) st = Raise TypeError.
Proof.
  revert st. induction l1 as [|kv1 l1 IH]; intros st; simpl.
  - intros _ Hkv. now rewrite (close_step_not_a_number cd m st kv Hkv).
  - rewrite andb_true_iff. intros [Hkv1 Hrest] Hkv.
    destruct (close_step_integers cd m st kv1 Hkv1) as (st' & ->). cbn [bind].
    now apply IH.
Qed.

(** X10: when [close_context_if_improved] raises and when it is sure to
    return.  Previous scores that are not a dict raise [AttributeError];
    empty (or absent) previous scores give the resolved result whatever the
    current evaluation holds; with previous metrics, current scores that are
    not a dict raise [AttributeError]; with two dicts the call returns when
    every previous score and the current score it is compared with are
    integers, and raises [TypeError] at the first previous metric whose
    score, or the current score it is compared with, is no number at all
    (null, a str, a list or a dict), the metrics before it having integer
    scores. *)
Theorem close_context_returns (previous current : dict json) (m : Z) :
  ((forall items, dict_get_default previous "scores" (JDict []) <> JDict items) ->
   close_context_if_improved previous current m = Raise AttributeError) /\
  (dict_get_default previous "scores" (JDict []) = JDict [] ->
   close_context_if_improved previous current m =
   Ok [("improvements", JDict []); ("resolved", JBool true);
       ("unresolved", JList []); ("nextAction", JStr "exit-instinct-context")]) /\
  (forall items,
     dict_get_default previous "scores" (JDict []) = JDict items ->
     items <> [] ->
     (forall cd, dict_get_default current "scores" (JDict []) <> JDict cd) ->
     close_context_if_improved previous current m = Raise AttributeError) /\
  (forall items cd,
     dict_get_default previous "scores" (JDict []) = JDict items ->
     dict_get_default current "scores" (JDict []) = JDict cd ->
     (forallb (integer_pair cd) items = true ->
      exists res, close_context_if_improved previous current m = Ok res) /\
     (forall l1 kv l2,
        items = l1 ++ kv :: l2 ->
        forallb (integer_pair cd) l1 = true ->
        not_a_number (snd kv) = true \/
        not_a_number (dict_get_default cd (fst kv) (snd kv)) = true ->
        close_context_if_improved previous current m = Raise TypeError)).
Proof.
  unfold close_context_if_improved. split; [|split; [|split]].
  - intros Hnot.
    destruct (dict_get_default previous "scores" (JDict [])) as [| | | | |d];
      try reflexivity.
    exfalso. now apply (Hnot d).
  - intros ->. reflexivity.
  - intros [|kv items] -> Hne Hcur; [congruence|]. cbn [py_items bind foldM].
    destruct (dict_get_default current "scores" (JDict [])) as [| | | | |cd];
      try reflexivity.
    exfalso. now apply (Hcur cd).
  - intros items cd -> ->. cbn [py_items bind]. split.
    + intros Hall.
      destruct (close_loop_integers cd m items ([], []) Hall) as (st & ->).
      cbn [bind]. eauto.
    + intros l1 kv l2 -> Hl1 Hkv.
      now rewrite (close_loop_not_a_number cd m l1 l2 kv ([], []) Hl1 Hkv).
Qed.

Lemma current_or_previous_self (ps : dict Z) (kv : string * Z) :
  NoDup (map fst ps) -> In kv ps ->
  current_or_previous ps (fst kv) (snd kv) = snd kv.
Proof.
  intros Hnd Hin. unfold current_or_previous, dict_get_default.
  destruct kv as [k z]. cbn [fst snd]. now rewrite (In_dict_get ps k z Hnd Hin).
Qed.

(** When every compared current score equals the previous one. *)
Lemma close_context_same_scores (previous current : dict json)
    (ps cs : dict Z) (m : Z) :
  dict_get_default previous "scores" (JDict []) = scores_json ps ->
  dict_get_default current "scores" (JDict []) = scores_json cs ->
  NoDup (map fst ps) ->
  (forall kv, In kv ps -> current_or_previous cs (fst kv) (snd kv) = snd kv) ->
  close_context_if_improved previous current m
  = Ok (recovery_result
          (map (fun kv => (fst kv, JInt 0)) ps,
           if 0 <? m then map fst (filter flagged ps) else [])).
Proof.
  intros Hprev Hcur Hnd Hself.
  rewrite (close_context_spec previous current ps cs m Hprev Hcur Hnd).
  f_equal. f_equal. f_equal.
  - unfold improvements_spec. apply map_ext_in.
    intros kv Hin. now rewrite (Hself kv Hin), Z.sub_diag.
  - unfold unresolved_spec. destruct (0 <? m) eqn:Hm.
    + f_equal. apply filter_ext_in. intros kv Hin.
      unfold is_unresolved, flagged. rewrite (Hself kv Hin), Z.sub_diag, Hm.
      now destruct (negb (String.eqb (band_for_score (snd kv)) "monitor")).
    + replace (filter (is_unresolved cs m) ps) with (@nil (string * Z)); [reflexivity|].
      symmetry. clear -Hself Hm. induction ps as [|kv ps IH]; [reflexivity|].
      simpl. unfold is_unresolved at 1.
      rewrite (Hself kv (or_introl eq_refl)), Z.sub_diag, Hm, andb_false_r.
      simpl. apply IH. intros kv' Hin. apply Hself. now right.
Qed.

(** X11: a metric missing from the current scores counts as unchanged, so
    comparing with an evaluation that has no scores at all is the same as
    comparing the previous evaluation with itself: every delta is 0, and with
    a positive threshold the unresolved metrics are exactly the previous
    metrics whose band is not monitor, while with a threshold of 0 or less
    nothing is unresolved. *)
Theorem close_context_absent_current (previous current : dict json)
    (ps : dict Z) (m : Z) :
  dict_get_default previous "scores" (JDict []) = scores_json ps ->
  NoDup (map fst ps) ->
  dict_get current "scores" = None ->
  close_context_if_improved previous current m
  = close_context_if_improved previous previous m /\
  close_context_if_improved previous current m
  = Ok (recovery_result
          (map (fun kv => (fst kv, JInt 0)) ps,
           if 0 <? m then map fst (filter flagged ps) else [])).
Proof.
  intros Hprev Hnd Hcur.
  assert (Hcur' : dict_get_default current "scores" (JDict []) = scores_json []).
  { unfold dict_get_default. now rewrite Hcur. }
  rewrite (close_context_same_scores previous current ps [] m Hprev Hcur' Hnd)
    by reflexivity.
  rewrite (close_context_same_scores previous previous ps ps m Hprev Hprev Hnd)
    by (intros; now apply current_or_previous_self).
  split; reflexivity.
Qed.

(** X12: the threshold only ever adds unresolved metrics: with a larger
    [min_improvement] the deltas are the same and every metric unresolved
    before is still unresolved, so a comparison resolved at the larger
    threshold is resolved at the smaller one. *)
Theorem close_context_threshold_monotone (previous current : dict json)
    (ps cs : dict Z) (m1 m2 : Z) :
  dict_get_default previous "scores" (JDict []) = scores_json ps ->
  dict_get_default current "scores" (JDict []) = scores_json cs ->
  NoDup (map fst ps) ->
  m1 <= m2 ->
  exists improvements unresolved1 unresolved2,
    close_context_if_improved previous current m1
    = Ok (recovery_result (improvements, unresolved1)) /\
    close_context_if_improved previous current m2
    = Ok (recovery_result (improvements, unresolved2)) /\
    incl unresolved1 unresolved2 /\
    (unresolved2 = [] -> unresolved1 = []).
Proof.
  intros Hprev Hcur Hnd Hle.
  exists (improvements_spec ps cs), (unresolved_spec ps cs m1), (unresolved_spec ps cs m2).
  assert (Hincl : incl (unresolved_spec ps cs m1) (unresolved_spec ps cs m2)).
  { intros metric Hin. unfold unresolved_spec in *.
    apply in_map_iff in Hin as (kv & <- & Hin).
    apply filter_In in Hin as [Hin Hun].
    apply in_map. apply filter_In. split; [assumption|].
    unfold is_unresolved in *.
    rewrite !andb_true_iff in *. destruct Hun as [[H1 H2] H3].
    rewrite Z.ltb_lt in *. repeat split; auto. lia. }
  split; [exact (close_context_spec previous current ps cs m1 Hprev Hcur Hnd)|].
  split; [exact (close_context_spec previous current ps cs m2 Hprev Hcur Hnd)|].
  split; [exact Hincl|].
  intros H2. destruct (unresolved_spec ps cs m1) as [|x l]; [reflexivity|].
  exfalso. rewrite H2 in Hincl. apply (Hincl x). now left.
Qed.

(* ================================================================== *)
(** ** Further properties: evaluator *)
(* ================================================================== *)

Section EvaluatorFurther.

Variable int_of_str : string -> option Z.

Lemma clamp_score_converts (v : json) :
  (exists z, py_int int_of_str v = Ok z) <->
  (exists s, clamp_score int_of_str v = Ok s).
Proof.
  unfold clamp_score. split.
  - intros (z & ->). simpl. eauto.
  - intros (s & H). apply bind_Ok in H as (z & Hz & _). eauto.
Qed.

(** The comprehension returns when every score converts and otherwise
    raises what [int] raises on the first score that does not. *)
Lemma clamp_loop_returns (items : dict json) (acc : dict Z) :
  ((exists scores,
      foldM (fun scores kv =>
               s <- clamp_score int_of_str (snd kv) ;;
               Ok (dict_set scores (fst kv) s)) items acc = Ok scores) <->
   Forall (converts int_of_str) items) /\
  (forall l1 k v l2 e,
     items = l1 ++ (k, v) :: l2 ->
     Forall (converts int_of_str) l1 ->
     py_int int_of_str v = Raise e ->
     foldM (fun scores kv =>
              s <- clamp_score int_of_str (snd kv) ;;
              Ok (dict_set scores (fst kv) s)) items acc = Raise e).
Proof.
  revert acc. induction items as [|[k0 v0] items IH]; intros acc; simpl.
  - split; [split; [constructor|eauto]|].
    intros [|? ?] ? ? ? ? H; discriminate H.
  - unfold clamp_score at 1 3. simpl snd. simpl fst.
    destruct (py_int int_of_str v0) as [z|e0] eqn:Hv0; cbn [bind].
    + destruct (IH (dict_set acc k0 (Z.max 0 (Z.min 100 z)))) as [Hiff Herr].
      split.
      * rewrite Hiff. split.
        -- intros H. constructor; [|assumption]. exists z. exact Hv0.
        -- intros H. now inversion H.
      * intros [|kv l1] k v l2 e Heq Hl1 Hv; simpl in Heq;
          inversion Heq; subst.
        -- congruence.
        -- inversion Hl1; subst. eapply Herr; eauto.
    + split.
      * split; [intros (scores & H); discriminate H|].
        intros H. inversion H as [|? ? (z & Hz) _]; subst.
        simpl in Hz. congruence.
      * intros [|kv l1] k v l2 e Heq Hl1 Hv; simpl in Heq;
          inversion Heq; subst.
        -- congruence.
        -- inversion Hl1 as [|? ? (z & Hz) _]; subst. simpl in Hz. congruence.
Qed.

(** X1: with a truthy child, [evaluate_child] raises [AttributeError] when
    the child is not a dict or its truthy scores are not a dict; otherwise it
    returns exactly when every score converts with [int], and raises what
    [int] raises on the first score that does not. *)
Theorem evaluate_child_returns (state : dict json) :
  truthy (dict_get_default state "child" JNull) = true ->
  ((forall c, dict_get_default state "child" JNull <> JDict c) ->
   evaluate_child int_of_str state = Raise AttributeError) /\
  (forall c,
     dict_get_default state "child" JNull = JDict c ->
     (forall items, child_scores c <> JDict items) ->
     evaluate_child int_of_str state = Raise AttributeError) /\
  (forall c items,
     dict_get_default state "child" JNull = JDict c ->
     child_scores c = JDict items ->
     ((exists ev, evaluate_child int_of_str state = Ok ev) <->
      Forall (converts int_of_str) items) /\
     (forall l1 k v l2 e,
        items = l1 ++ (k, v) :: l2 ->
        Forall (converts int_of_str) l1 ->
        py_int int_of_str v = Raise e ->
        evaluate_child int_of_str state = Raise e)).
Proof.
  intros Ht. unfold evaluate_child. rewrite Ht. cbn [negb].
  split; [|split].
  - intros Hnot.
    destruct (dict_get_default state "child" JNull) as [| | | | |c];
      try reflexivity.
    exfalso. now apply (Hnot c).
  - intros c -> Hnot. cbn [py_get bind]. fold (child_scores c).
    destruct (child_scores c) as [| | | | |items]; try reflexivity.
    exfalso. now apply (Hnot items).
  - intros c items -> Hitems. cbn [py_get bind]. fold (child_scores c).
    rewrite Hitems. cbn [py_items bind]. unfold clamp_all.
    destruct (clamp_loop_returns items []) as [Hiff Herr]. split.
    + rewrite <- Hiff. split.
      * intros (ev & H). apply bind_Ok in H as (scores & Hs & _). eauto.
      * intros (scores & ->). cbn [bind]. eauto.
    + intros l1 k v l2 e Heq Hl1 Hv.
      now rewrite (Herr l1 k v l2 e Heq Hl1 Hv).
Qed.

(** X2: a falsy [scores] field of whatever type (absent, null, an empty
    dict or list, 0, the empty str, false) is an empty score map, not an
    error: the evaluation has no scores and no events and its plan is the
    stable one. *)
Theorem evaluate_child_falsy_scores (now : string) (state c : dict json) :
  dict_get_default state "child" JNull = JDict c ->
  c <> [] ->
  truthy (dict_get_default c "scores" JNull) = false ->
  evaluate_child int_of_str state =
  Ok [("hasChild", JBool true);
      ("status", JStr "ok");
      ("childId", dict_get_default c "id" JNull);
      ("stage", dict_get_default c "stage" JNull);
      ("scores", JDict []);
      ("events", JList [])] /\
  (ev <- evaluate_child int_of_str state ;; build_instinct_plan now ev) =
  Ok [("enabled", JBool true); ("reason", JStr "stable");
      ("crons", JList []); ("suggestions", JList [])].
Proof.
  intros Hchild Hc Hfalsy.
  assert (Hev : evaluate_child int_of_str state =
                Ok [("hasChild", JBool true);
                    ("status", JStr "ok");
                    ("childId", dict_get_default c "id" JNull);
                    ("stage", dict_get_default c "stage" JNull);
                    ("scores", JDict []);
                    ("events", JList [])]).
  { unfold evaluate_child. rewrite Hchild.
    destruct c as [|kv c']; [congruence|]. cbn [truthy negb py_get bind].
    rewrite Hfalsy. reflexivity. }
  split; [exact Hev|]. rewrite Hev. reflexivity.
Qed.

(** X3: the evaluation of a truthy child always has the same six fields, in
    this order; [childId] and [stage] are the child's [id] and [stage], and
    are present with the value null when the child has none. *)
Theorem evaluate_child_shape (state ev : dict json) :
  truthy (dict_get_default state "child" JNull) = true ->
  evaluate_child int_of_str state = Ok ev ->
  map fst ev = ["hasChild"; "status"; "childId"; "stage"; "scores"; "events"] /\
  dict_get ev "hasChild" = Some (JBool true) /\
  dict_get ev "status" = Some (JStr "ok") /\
  exists c,
    dict_get_default state "child" JNull = JDict c /\
    dict_get ev "childId" = Some (dict_get_default c "id" JNull) /\
    dict_get ev "stage" = Some (dict_get_default c "stage" JNull) /\
    (dict_get c "id" = None -> dict_get ev "childId" = Some JNull) /\
    (dict_get c "stage" = None -> dict_get ev "stage" = Some JNull).
Proof.
  intros Ht Hev.
  apply evaluate_child_inv in Hev as [[Hf _]|Hev]; [congruence|].
  destruct Hev as (c & items & scores & Hc & _ & _ & _ & ->).
  repeat split. exists c. repeat split; try assumption.
  - intros H. simpl. unfold dict_get_default. now rewrite H.
  - intros H. simpl. unfold dict_get_default. now rewrite H.
Qed.

Lemma filter_score_event_of (s : Z) (l : dict Z) :
  filter (fun e => ev_score e =? s) (map event_of l)
  = map event_of (filter (fun kv => snd kv =? s) l).
Proof.
  induction l as [|kv l IH]; simpl; [reflexivity|].
  destruct (snd kv =? s); simpl; now rewrite IH.
Qed.

(** X4: events of equal score keep the order their metrics have in the
    score map: for each score, the events with that score are the flagged
    entries of the score map with that score, in the map's order. *)
Theorem evaluate_child_tie_order (state ev : dict json) :
  truthy (dict_get_default state "child" JNull) = true ->
  evaluate_child int_of_str state = Ok ev ->
  exists scores evs,
    dict_get ev "scores" = Some (scores_json scores) /\
    dict_get ev "events" = Some (JList (map event_json evs)) /\
    forall s,
      filter (fun e => ev_score e =? s) evs
      = map event_of (filter (fun kv => snd kv =? s) (filter flagged scores)).
Proof.
  intros Ht Hev.
  apply evaluate_child_inv in Hev as [[Hf _]|Hev]; [congruence|].
  destruct Hev as (c & items & scores & _ & _ & _ & _ & ->).
  exists scores, (sorted_desc ev_score (collect_events scores)).
  split; [reflexivity|]. split; [reflexivity|].
  intros s. rewrite sorted_desc_stable, collect_events_filter.
  apply filter_score_event_of.
Qed.

End EvaluatorFurther.

(* ================================================================== *)
(** ** Further properties: the stages composed *)
(* ================================================================== *)

Lemma build_plan_no_child (now : string) (ev : dict json) :
  truthy (dict_get_default ev "hasChild" JNull) = false ->
  build_instinct_plan now ev = Ok (plan false "no-child" [] []).
Proof. intros H. unfold build_instinct_plan. now rewrite H. Qed.

Lemma build_plan_stable (now : string) (ev : dict json) :
  truthy (dict_get_default ev "hasChild" JNull) = true ->
  truthy (dict_get_default ev "events" (JList [])) = false ->
  build_instinct_plan now ev = Ok (plan true "stable" [] []).
Proof. intros H1 H2. unfold build_instinct_plan. now rewrite H1, H2. Qed.

Lemma sorted_desc_nil {A : Type} (key : A -> Z) (l : list A) :
  sorted_desc key l = [] -> l = [].
Proof.
  intros H. apply Permutation_nil. rewrite <- H.
  apply Permutation_sym, sorted_desc_perm.
Qed.

Lemma flagged_clamp (k : string) (v : Z) : flagged (k, clamp v) = (40 <=? v).
Proof.
  unfold flagged. cbn [snd]. rewrite band_monitor_eqb, negb_involutive.
  unfold clamp.
  destruct (Z.leb_spec 40 v); destruct (Z.leb_spec 40 (Z.max 0 (Z.min 100 v)));
    destruct (Z.leb_spec (Z.max 0 (Z.min 100 v)) 100); simpl; try reflexivity; lia.
Qed.

Lemma collect_clamped_nil (zs : dict Z) :
  collect_events (clamped zs) = [] <-> forall metric v, In (metric, v) zs -> v <= 39.
Proof.
  rewrite collect_events_filter. unfold clamped.
  induction zs as [|[k v] zs IH]; simpl.
  - split; [intros _ ? ? []|reflexivity].
  - rewrite flagged_clamp. destruct (Z.leb_spec 40 v) as [Hge|Hlt]; simpl.
    + split; [discriminate|]. intros H. specialize (H k v (or_introl eq_refl)). lia.
    + rewrite IH. split.
      * intros H metric v' [Heq|Hin]; [inversion Heq; lia|eauto].
      * intros H metric v' Hin. apply (H metric v'). now right.
Qed.

Section PipelineFurther.

Variable int_of_str : string -> option Z.

(** What the later stages read in an evaluation the evaluator returned. *)
Lemma evaluation_view (state ev : dict json) :
  evaluate_child int_of_str state = Ok ev ->
  exists scores,
    NoDup (map fst scores) /\
    (forall kv, In kv scores -> 0 <= snd kv <= 100) /\
    dict_get_default ev "scores" (JDict []) = scores_json scores /\
    dict_get_default ev "events" (JList [])
    = JList (map event_json (sorted_desc ev_score (collect_events scores))) /\
    dict_get_default ev "hasChild" JNull
    = JBool (truthy (dict_get_default state "child" JNull)) /\
    dict_get ev "evaluation" = None.
Proof.
  intros Hev. apply evaluate_child_inv in Hev as [[Hf ->]|Hev].
  - exists []. rewrite Hf. repeat split; try constructor; contradiction.
  - destruct Hev as (c & items & scores & Hc & Hne & _ & Hclamp & ->).
    apply clamp_all_spec in Hclamp as (Hnd & Hrange & _).
    rewrite Forall_forall in Hrange.
    exists scores. rewrite Hc.
    assert (Ht : truthy (JDict c) = true) by (destruct c; [congruence|reflexivity]).
    rewrite Ht. repeat split; auto; apply Hrange; assumption.
Qed.

(** X8: the plan builder accepts every evaluation the evaluator returns;
    the plan is enabled exactly when the child is truthy, and its reason is
    no-child without a child, stable with a child and no event, and
    threshold-crossed with at least one event. *)
Theorem pipeline_total (now : string) (state ev : dict json) :
  evaluate_child int_of_str state = Ok ev ->
  exists p reason,
    build_instinct_plan now ev = Ok p /\
    dict_get p "enabled"
    = Some (JBool (truthy (dict_get_default state "child" JNull))) /\
    dict_get p "reason" = Some (JStr reason) /\
    (reason = "no-child" <-> truthy (dict_get_default state "child" JNull) = false) /\
    (reason = "stable" <->
     truthy (dict_get_default state "child" JNull) = true /\
     dict_get_default ev "events" (JList []) = JList []) /\
    (reason = "threshold-crossed" <->
     exists e rest, dict_get_default ev "events" (JList []) = JList (e :: rest)).
Proof.
  intros Hev.
  destruct (evaluation_view state ev Hev) as (scores & _ & _ & _ & Hevents & Hchild & _).
  rewrite Hevents.
  destruct (truthy (dict_get_default state "child" JNull)) eqn:Ht.
  - assert (Hc : truthy (dict_get_default ev "hasChild" JNull) = true)
      by now rewrite Hchild.
    destruct (sorted_desc ev_score (collect_events scores)) as [|x xs] eqn:Hs.
    + exists (plan true "stable" [] []), "stable".
      split; [apply build_plan_stable; [exact Hc|now rewrite Hevents]|].
      repeat split; try discriminate; try reflexivity.
      intros (e & rest & H). discriminate H.
    + exists (plan true "threshold-crossed" (crons now)
                (suggestions_spec
                   (map (fun e => (ev_metric e, JStr (ev_level e))) (x :: xs)))),
             "threshold-crossed".
      split.
      { apply (build_plan_threshold now ev (map event_json (x :: xs))).
        - exact Hc.
        - unfold dict_get_default in Hevents.
          destruct (dict_get ev "events") as [v|] eqn:Hget; [now subst v|].
          discriminate Hevents.
        - discriminate.
        - apply event_view_event_json. }
      repeat split; try discriminate; try reflexivity.
      * intros [_ H]. discriminate H.
      * intros _. simpl. eauto.
  - assert (Hc : truthy (dict_get_default ev "hasChild" JNull) = false)
      by now rewrite Hchild.
    exists (plan false "no-child" [] []), "no-child".
    split; [now apply build_plan_no_child|].
    repeat split; try discriminate; try reflexivity.
    + intros [H _]. discriminate H.
    + intros (e & rest & H).
      apply evaluate_child_inv in Hev as [[_ ->]|Hev].
      * rewrite <- Hevents in H. discriminate H.
      * destruct Hev as (c & _ & _ & Hc' & Hne & _).
        rewrite Hc' in Ht. destruct c; [congruence|discriminate Ht].
Qed.

(** X9: for a child whose scores are integers, the plan of its evaluation is
    threshold-crossed exactly when some raw score is at least 40 and stable
    exactly when every raw score is at most 39: clamping never moves a score
    across the soft threshold. *)
Theorem pipeline_threshold (now : string) (state c : dict json) (zs : dict Z) :
  dict_get state "child" = Some (JDict c) ->
  c <> [] ->
  dict_get c "scores" = Some (scores_json zs) ->
  NoDup (map fst zs) ->
  exists ev p reason,
    evaluate_child int_of_str state = Ok ev /\
    build_instinct_plan now ev = Ok p /\
    dict_get p "reason" = Some (JStr reason) /\
    (reason = "threshold-crossed" <-> exists metric v, In (metric, v) zs /\ 40 <= v) /\
    (reason = "stable" <-> forall metric v, In (metric, v) zs -> v <= 39).
Proof.
  intros Hchild Hc Hscores Hnd.
  pose proof (evaluate_child_ints int_of_str state c zs Hchild Hc Hscores Hnd) as Hev.
  destruct (sorted_desc ev_score (collect_events (clamped zs))) as [|x xs] eqn:Hs.
  - assert (Hall : forall metric v, In (metric, v) zs -> v <= 39).
    { apply collect_clamped_nil. now apply (sorted_desc_nil ev_score). }
    eexists. exists (plan true "stable" [] []), "stable".
    split; [exact Hev|].
    split; [reflexivity|]. split; [reflexivity|]. split.
    + split; [discriminate|]. intros (metric & v & Hin & Hge).
      specialize (Hall metric v Hin). lia.
    + split; [intros _; exact Hall|reflexivity].
  - assert (Hsome : exists metric v, In (metric, v) zs /\ 40 <= v).
    { assert (Hin : In x (collect_events (clamped zs))).
      { apply (Permutation_in _ (Permutation_sym (sorted_desc_perm ev_score _))).
        rewrite Hs. now left. }
      rewrite collect_events_filter in Hin.
      apply in_map_iff in Hin as (kv & _ & Hin).
      apply filter_In in Hin as [Hin Hfl]. unfold clamped in Hin.
      apply in_map_iff in Hin as ([k v] & <- & Hin). cbn [fst snd] in Hfl.
      rewrite flagged_clamp in Hfl. exists k, v. split; [assumption|].
      now apply Z.leb_le. }
    eexists.
    exists (plan true "threshold-crossed" (crons now)
              (suggestions_spec
                 (map (fun e => (ev_metric e, JStr (ev_level e))) (x :: xs)))),
           "threshold-crossed".
    split; [exact Hev|]. split.
    { apply (build_plan_threshold now _ (map event_json (x :: xs))).
      - reflexivity.
      - reflexivity.
      - discriminate.
      - apply event_view_event_json. }
    split; [reflexivity|]. split.
    + split; [intros _; exact Hsome|reflexivity].
    + split; [discriminate|]. intros Hall.
      destruct Hsome as (metric & v & Hin & Hge).
      specialize (Hall metric v Hin). lia.
Qed.

End PipelineFurther.

(* ================================================================== *)
(** ** Further properties: recovery in the pipeline and [main] *)
(* ================================================================== *)

Lemma events_present (ev : dict json) (evs : list json) :
  dict_get_default ev "events" (JList []) = JList evs ->
  evs <> [] ->
  dict_get ev "events" = Some (JList evs).
Proof.
  unfold dict_get_default. destruct (dict_get ev "events") as [v|].
  - now intros ->.
  - intros H Hne. inversion H. congruence.
Qed.

Lemma dict_set_recovery (a b c v : json) :
  dict_set [("evaluatedAt", a); ("evaluation", b); ("plan", c)] "recovery" v
  = [("evaluatedAt", a); ("evaluation", b); ("plan", c); ("recovery", v)].
Proof. reflexivity. Qed.

Lemma flagged_iff (scores : dict Z) (kv : string * Z) :
  (forall kv', In kv' scores -> 0 <= snd kv' <= 100) ->
  In kv scores ->
  (flagged kv = true <-> 40 <= snd kv).
Proof.
  intros Hrange Hin. unfold flagged.
  rewrite band_monitor_eqb, negb_involutive, andb_true_iff, !Z.leb_le.
  specialize (Hrange kv Hin). lia.
Qed.

Section RecoveryFurther.

Variable int_of_str : string -> option Z.

(** The plan of an evaluation the evaluator returned, by whether its score
    map has a flagged entry. *)
Lemma plan_after_evaluation (now : string) (state ev : dict json) :
  evaluate_child int_of_str state = Ok ev ->
  exists scores,
    NoDup (map fst scores) /\
    (forall kv, In kv scores -> 0 <= snd kv <= 100) /\
    dict_get_default ev "scores" (JDict []) = scores_json scores /\
    dict_get_default ev "events" (JList [])
    = JList (map event_json (sorted_desc ev_score (collect_events scores))) /\
    ((filter flagged scores = [] /\
      exists enabled reason,
        reason <> "threshold-crossed" /\
        build_instinct_plan now ev = Ok (plan enabled reason [] [])) \/
     (filter flagged scores <> [] /\
      exists sg,
        build_instinct_plan now ev
        = Ok (plan true "threshold-crossed" (crons now) sg))).
Proof.
  intros Hev.
  destruct (evaluation_view int_of_str state ev Hev)
    as (scores & Hnd & Hrange & Hscores & Hevents & Hchild & _).
  exists scores. repeat (split; [assumption|]).
  destruct (truthy (dict_get_default state "child" JNull)) eqn:Ht.
  - assert (Hc : truthy (dict_get_default ev "hasChild" JNull) = true)
      by now rewrite Hchild.
    destruct (filter flagged scores) as [|kv kvs] eqn:Hfl.
    + left. split; [reflexivity|]. exists true, "stable". split; [discriminate|].
      apply build_plan_stable; [exact Hc|].
      now rewrite Hevents, collect_events_filter, Hfl.
    + right. split; [discriminate|]. eexists.
      assert (Hne : map event_json (sorted_desc ev_score (collect_events scores)) <> []).
      { intros Hnil. apply map_eq_nil in Hnil. apply sorted_desc_nil in Hnil.
        rewrite collect_events_filter, Hfl in Hnil. discriminate Hnil. }
      apply (build_plan_threshold now ev
               (map event_json (sorted_desc ev_score (collect_events scores)))).
      * exact Hc.
      * now apply events_present.
      * exact Hne.
      * apply event_view_event_json.
  - assert (Hc : truthy (dict_get_default ev "hasChild" JNull) = false)
      by now rewrite Hchild.
    apply evaluate_child_inv in Hev as [[_ ->]|Hev].
    + left. simpl in Hscores. inversion Hscores as [Hs].
      destruct scores; [|discriminate Hs].
      split; [reflexivity|]. exists false, "no-child". split; [discriminate|].
      reflexivity.
    + destruct Hev as (c & _ & _ & Hc' & Hne & _).
      rewrite Hc' in Ht. destruct c; [congruence|discriminate Ht].
Qed.

(** X13: the comparator accepts any two evaluations the evaluator returned.
    Their scores being clamped, a metric is unresolved exactly when its
    previous score is at least 40, its delta is below the threshold and its
    current score (the previous one when the metric is gone) is at least 40;
    a previous evaluation without events is always resolved. *)
Theorem recovery_after_evaluation (state1 state2 ev1 ev2 : dict json) (m : Z) :
  evaluate_child int_of_str state1 = Ok ev1 ->
  evaluate_child int_of_str state2 = Ok ev2 ->
  exists scores1 scores2 improvements unresolved,
    dict_get_default ev1 "scores" (JDict []) = scores_json scores1 /\
    dict_get_default ev2 "scores" (JDict []) = scores_json scores2 /\
    close_context_if_improved ev1 ev2 m
    = Ok (recovery_result (improvements, unresolved)) /\
    (forall metric,
       In metric unresolved <->
       exists prev,
         dict_get scores1 metric = Some prev /\
         40 <= prev /\
         prev - dict_get_default scores2 metric prev < m /\
         40 <= dict_get_default scores2 metric prev) /\
    (dict_get_default ev1 "events" (JList []) = JList [] -> unresolved = []).
Proof.
  intros Hev1 Hev2.
  destruct (evaluation_view int_of_str state1 ev1 Hev1)
    as (scores1 & Hnd1 & Hr1 & Hs1 & Hevents1 & _).
  destruct (evaluation_view int_of_str state2 ev2 Hev2)
    as (scores2 & Hnd2 & Hr2 & Hs2 & _).
  exists scores1, scores2, (improvements_spec scores1 scores2),
         (unresolved_spec scores1 scores2 m).
  split; [assumption|]. split; [assumption|].
  split; [exact (close_context_spec ev1 ev2 scores1 scores2 m Hs1 Hs2 Hnd1)|].
  assert (Hcur : forall metric prev,
            dict_get scores1 metric = Some prev ->
            0 <= dict_get_default scores2 metric prev <= 100).
  { intros metric prev Hget. unfold dict_get_default.
    destruct (dict_get scores2 metric) as [c|] eqn:Hc.
    - exact (Hr2 _ (dict_get_In _ _ _ Hc)).
    - exact (Hr1 _ (dict_get_In _ _ _ Hget)). }
  assert (Hiff : forall metric,
    In metric (unresolved_spec scores1 scores2 m) <->
    exists prev,
      dict_get scores1 metric = Some prev /\
      40 <= prev /\
      prev - dict_get_default scores2 metric prev < m /\
      40 <= dict_get_default scores2 metric prev).
  { intros metric. split.
    - intros Hin. assert (Hin' := Hin). unfold unresolved_spec in Hin'.
      apply in_map_iff in Hin' as ([k prev] & Hk & Hkv). simpl in Hk. subst k.
      apply filter_In in Hkv as [Hkv _].
      assert (Hget : dict_get scores1 metric = Some prev) by now apply In_dict_get.
      apply (unresolved_spec_In scores1 scores2 m metric prev Hnd1 Hget) in Hin.
      apply is_unresolved_iff in Hin as (Hp & Hd & Hc).
      apply band_monitor_iff in Hp. apply band_monitor_iff in Hc.
      exists prev. repeat split; try assumption; lia.
    - intros (prev & Hget & Hp & Hd & Hc).
      apply (unresolved_spec_In scores1 scores2 m metric prev Hnd1 Hget).
      apply is_unresolved_iff. rewrite !band_monitor_iff.
      pose proof (Hr1 _ (dict_get_In _ _ _ Hget)) as Hrp. simpl in Hrp.
      pose proof (Hcur metric prev Hget) as Hrc.
      repeat split; try assumption; lia. }
  split; [exact Hiff|].
  intros Hnone.
  rewrite Hevents1 in Hnone. inversion Hnone as [Hnil].
  apply map_eq_nil in Hnil. apply sorted_desc_nil in Hnil.
  rewrite collect_events_filter in Hnil. apply map_eq_nil in Hnil.
  destruct (unresolved_spec scores1 scores2 m) as [|x l] eqn:Hun; [reflexivity|].
  exfalso.
  destruct (proj1 (Hiff x) (or_introl eq_refl)) as (prev & Hget & Hp & _).
  apply dict_get_In in Hget.
  assert (Hin : In (x, prev) (filter flagged scores1)).
  { apply filter_In. split; [assumption|].
    now apply (flagged_iff scores1 (x, prev) Hr1 Hget). }
  rewrite Hnil in Hin. contradiction.
Qed.

Lemma main_document_none (n1 n2 : string) (state : json) (out : dict json) :
  main_document int_of_str n1 n2 state None = Ok out ->
  exists d ev p,
    state = JDict d /\
    evaluate_child int_of_str d = Ok ev /\
    build_instinct_plan n1 ev = Ok p /\
    out = [("evaluatedAt", JStr n2); ("evaluation", JDict ev); ("plan", JDict p)].
Proof.
  unfold main_document. intros H.
  apply bind_Ok in H as (ev & Hev & H).
  apply bind_Ok in H as (p & Hp & H).
  destruct state as [| | | | |d]; try discriminate Hev.
  inversion H. exists d, ev, p. auto.
Qed.

Lemma main_document_some (n1 n2 : string) (d ev p : dict json) (prev : json) :
  evaluate_child int_of_str d = Ok ev ->
  build_instinct_plan n1 ev = Ok p ->
  main_document int_of_str n1 n2 (JDict d) (Some prev)
  = (prev_evaluation <- py_get_default prev "evaluation" (JDict []) ;;
     recovery <- match prev_evaluation with
                 | JDict e => close_context_if_improved e ev default_min_improvement
                 | _ => Raise AttributeError
                 end ;;
     Ok [("evaluatedAt", JStr n2); ("evaluation", JDict ev); ("plan", JDict p);
         ("recovery", JDict recovery)]).
Proof.
  intros Hev Hp. unfold main_document. rewrite Hev. cbn [bind]. rewrite Hp.
  cbn [bind].
  destruct (py_get_default prev "evaluation" (JDict [])) as [pe|e]; [|reflexivity].
  cbn [bind].
  destruct (match pe with
            | JDict e => close_context_if_improved e ev default_min_improvement
            | _ => Raise AttributeError
            end) as [r|e]; [|reflexivity].
  cbn [bind]. now rewrite dict_set_recovery.
Qed.

(** The evaluation inside any document [main] produced. *)
Lemma main_document_evaluation (n1 n2 : string) (state : json)
    (previous : option json) (out : dict json) :
  main_document int_of_str n1 n2 state previous = Ok out ->
  exists d ev,
    state = JDict d /\
    evaluate_child int_of_str d = Ok ev /\
    dict_get_default out "evaluation" (JDict []) = JDict ev.
Proof.
  intros H. assert (H' := H). unfold main_document in H'.
  apply bind_Ok in H' as (ev & Hev & H').
  apply bind_Ok in H' as (p & Hp & _).
  destruct state as [| | | | |d]; try discriminate Hev.
  exists d, ev. split; [reflexivity|]. split; [assumption|].
  destruct previous as [prev|].
  - rewrite (main_document_some n1 n2 d ev p prev Hev Hp) in H.
    apply bind_Ok in H as (pe & _ & H). apply bind_Ok in H as (r & _ & H).
    inversion H. reflexivity.
  - apply main_document_none in H as (d' & ev' & p' & Hd & Hev' & _ & ->).
    inversion Hd; subst d'. rewrite Hev in Hev'. inversion Hev'. reflexivity.
Qed.

(** X14: a document [main] wrote can be fed back as [--previous]: a run that
    succeeds without [--previous] also succeeds with it, and its document is
    the same with a recovery result appended. *)
Theorem main_own_output (n1 n2 n3 n4 : string) (state0 state : json)
    (previous0 : option json) (out0 out : dict json) :
  main_document int_of_str n1 n2 state0 previous0 = Ok out0 ->
  main_document int_of_str n3 n4 state None = Ok out ->
  exists recovery,
    main_document int_of_str n3 n4 state (Some (JDict out0))
    = Ok (out ++ [("recovery", JDict recovery)]) /\
    map fst recovery = ["improvements"; "resolved"; "unresolved"; "nextAction"].
Proof.
  intros H0 H.
  apply main_document_evaluation in H0 as (d0 & ev0 & _ & Hev0 & Hget0).
  apply main_document_none in H as (d & ev & p & -> & Hev & Hp & ->).
  destruct (evaluation_view int_of_str d0 ev0 Hev0) as (s0 & Hnd0 & _ & Hs0 & _).
  destruct (evaluation_view int_of_str d ev Hev) as (s & _ & _ & Hs & _).
  eexists.
  rewrite (main_document_some n3 n4 d ev p (JDict out0) Hev Hp).
  cbn [py_get_default bind]. rewrite Hget0.
  rewrite (close_context_spec ev0 ev s0 s _ Hs0 Hs Hnd0). cbn [bind].
  split; reflexivity.
Qed.

(** X15: the edges of [--previous].  A previous document without an
    evaluation field counts as having no scores, so the recovery is the
    resolved one; a previous document that is not a dict, or whose evaluation
    is not a dict, raises [AttributeError] although the run without
    [--previous] succeeds. *)
Theorem main_previous_edges (n1 n2 : string) (state : json) (out : dict json) :
  main_document int_of_str n1 n2 state None = Ok out ->
  (forall prev,
     dict_get prev "evaluation" = None ->
     main_document int_of_str n1 n2 state (Some (JDict prev))
     = Ok (out ++
           [("recovery",
             JDict [("improvements", JDict []); ("resolved", JBool true);
                    ("unresolved", JList []);
                    ("nextAction", JStr "exit-instinct-context")])])) /\
  (forall prev,
     (forall d, prev <> JDict d) ->
     main_document int_of_str n1 n2 state (Some prev) = Raise AttributeError) /\
  (forall prev e,
     dict_get prev "evaluation" = Some e ->
     (forall d, e <> JDict d) ->
     main_document int_of_str n1 n2 state (Some (JDict prev)) = Raise AttributeError).
Proof.
  intros H.
  apply main_document_none in H as (d & ev & p & -> & Hev & Hp & ->).
  split; [|split].
  - intros prev Hnone.
    rewrite (main_document_some n1 n2 d ev p _ Hev Hp).
    unfold py_get_default, dict_get_default. rewrite Hnone. reflexivity.
  - intros prev Hnot.
    rewrite (main_document_some n1 n2 d ev p _ Hev Hp).
    destruct prev as [| | | | |pd]; try reflexivity.
    exfalso. now apply (Hnot pd).
  - intros prev e He Hnot.
    rewrite (main_document_some n1 n2 d ev p _ Hev Hp).
    unfold py_get_default, dict_get_default. rewrite He. cbn [bind].
    destruct e as [| | | | |ed]; try reflexivity.
    exfalso. now apply (Hnot ed).
Qed.

(** X16: running again on an unchanged state with the first document as
    [--previous] gives deltas of 0 and reports resolved exactly when the plan
    is not threshold-crossed: without any change, every flagged metric stays
    unresolved. *)
Theorem main_unchanged_state (n1 n2 n3 n4 : string) (state : json)
    (out0 : dict json) :
  main_document int_of_str n1 n2 state None = Ok out0 ->
  exists ev p recovery,
    main_document int_of_str n3 n4 state (Some (JDict out0))
    = Ok [("evaluatedAt", JStr n4); ("evaluation", JDict ev);
          ("plan", JDict p); ("recovery", JDict recovery)] /\
    (dict_get recovery "resolved" = Some (JBool true) <->
     dict_get p "reason" <> Some (JStr "threshold-crossed")) /\
    (dict_get recovery "nextAction" = Some (JStr "continue-or-escalate") <->
     dict_get p "reason" = Some (JStr "threshold-crossed")) /\
    exists deltas,
      dict_get recovery "improvements" = Some (JDict deltas) /\
      forall metric delta, In (metric, delta) deltas -> delta = JInt 0.
Proof.
  intros H.
  apply main_document_none in H as (d & ev & p0 & -> & Hev & Hp0 & ->).
  destruct (plan_after_evaluation n3 d ev Hev)
    as (scores & Hnd & Hrange & Hs & _ & Hplan).
  assert (Hclose :
    close_context_if_improved ev ev default_min_improvement
    = Ok (recovery_result
            (map (fun kv => (fst kv, JInt 0)) scores, map fst (filter flagged scores)))).
  { rewrite (close_context_same_scores ev ev scores scores _ Hs Hs Hnd);
      [reflexivity|].
    intros kv Hin. now apply current_or_previous_self. }
  assert (Hzero : forall metric delta,
            In (metric, delta) (map (fun kv : string * Z => (fst kv, JInt 0)) scores) ->
            delta = JInt 0).
  { intros metric delta Hin. apply in_map_iff in Hin as (kv & Heq & _).
    now inversion Heq. }
  destruct Hplan as [[Hfl (enabled & reason & Hreason & Hp)]|[Hfl (sg & Hp)]].
  - exists ev, (plan enabled reason [] []),
           (recovery_result
              (map (fun kv => (fst kv, JInt 0)) scores, map fst (filter flagged scores))).
    rewrite (main_document_some n3 n4 d ev _ (JDict _) Hev Hp).
    cbn [py_get_default bind]. 
    change (dict_get_default
              [("evaluatedAt", JStr n2); ("evaluation", JDict ev); ("plan", JDict p0)]
              "evaluation" (JDict [])) with (JDict ev).
    cbv iota. rewrite Hclose. cbn [bind]. split; [reflexivity|].
    rewrite Hfl. simpl. split; [|split].
    + split; [|reflexivity]. intros _ Heq. inversion Heq. contradiction.
    + split; [discriminate|]. intros Heq. inversion Heq. contradiction.
    + eexists. split; [reflexivity|exact Hzero].
  - exists ev, (plan true "threshold-crossed" (crons n3) sg),
           (recovery_result
              (map (fun kv => (fst kv, JInt 0)) scores, map fst (filter flagged scores))).
    rewrite (main_document_some n3 n4 d ev _ (JDict _) Hev Hp).
    cbn [py_get_default bind].
    change (dict_get_default
              [("evaluatedAt", JStr n2); ("evaluation", JDict ev); ("plan", JDict p0)]
              "evaluation" (JDict [])) with (JDict ev).
    cbv iota. rewrite Hclose. cbn [bind]. split; [reflexivity|].
    destruct (filter flagged scores) as [|kv kvs]; [congruence|].
    simpl. split; [|split].
    + split; [discriminate|]. intros Hne. exfalso. now apply Hne.
    + split; reflexivity.
    + eexists. split; [reflexivity|exact Hzero].
Qed.

End RecoveryFurther.

(* ================================================================== *)
(** ** The further properties at the sample documents *)
(* ================================================================== *)

Lemma evaluate_child_returns_witness :
  (exists ev, evaluate_child no_str_scores sample_state = Ok ev) <->
  Forall (converts no_str_scores) [("fear", JInt 90); ("learning", JInt 50)].
Proof.
  exact (proj1 (proj2 (proj2 (evaluate_child_returns no_str_scores sample_state
                                eq_refl))
                  sample_child [("fear", JInt 90); ("learning", JInt 50)]
                  eq_refl eq_refl)).
Defined.

Lemma evaluate_child_falsy_scores_witness :
  evaluate_child no_str_scores
    [("child", JDict [("id", JStr "c1"); ("scores", JNull)])] =
  Ok [("hasChild", JBool true);
      ("status", JStr "ok");
      ("childId", JStr "c1");
      ("stage", JNull);
      ("scores", JDict []);
      ("events", JList [])].
Proof.
  refine (proj1 (evaluate_child_falsy_scores no_str_scores
                   "2026-01-01T00:00:00+00:00"
                   [("child", JDict [("id", JStr "c1"); ("scores", JNull)])]
                   [("id", JStr "c1"); ("scores", JNull)] _ _ _)).
  - reflexivity.
  - discriminate.
  - reflexivity.
Defined.

Lemma evaluate_child_shape_witness :
  map fst sample_evaluation
  = ["hasChild"; "status"; "childId"; "stage"; "scores"; "events"].
Proof.
  exact (proj1 (evaluate_child_shape no_str_scores sample_state sample_evaluation
                  eq_refl eq_refl)).
Defined.

Lemma evaluate_child_tie_order_witness :
  exists scores evs,
    dict_get sample_evaluation "scores" = Some (scores_json scores) /\
    dict_get sample_evaluation "events" = Some (JList (map event_json evs)) /\
    forall s,
      filter (fun e => ev_score e =? s) evs
      = map event_of (filter (fun kv => snd kv =? s) (filter flagged scores)).
Proof.
  exact (evaluate_child_tie_order no_str_scores sample_state sample_evaluation
           eq_refl eq_refl).
Defined.

Lemma severity_monotone_witness :
  (severity (band_for_score (clamp 10)) <= severity (band_for_score (clamp 90)))%nat.
Proof. apply severity_monotone. lia. Defined.

Lemma build_instinct_plan_result_witness :
  build_instinct_plan "2026-01-01T00:00:00+00:00" sample_evaluation =
  match first_error (map event_json sample_events) with
  | Some e => Raise e
  | None =>
      Ok [("enabled", JBool true); ("reason", JStr "threshold-crossed");
          ("crons", JList (crons "2026-01-01T00:00:00+00:00"));
          ("suggestions",
           JList (flat_map json_suggestions (map event_json sample_events)))]
  end.
Proof.
  exact (proj1 (build_instinct_plan_result "2026-01-01T00:00:00+00:00"
                  sample_evaluation eq_refl eq_refl)
               (map event_json sample_events) eq_refl).
Defined.

Lemma plan_suggestions_sound_witness :
  exists sg,
    dict_get (plan true "threshold-crossed" (crons "2026-01-01T00:00:00+00:00")
                (suggestions_spec sample_views)) "suggestions"
    = Some (JList sg) /\
    (List.length sg <= 2 * 2)%nat.
Proof.
  destruct (plan_suggestions_sound "2026-01-01T00:00:00+00:00" sample_evaluation
              (plan true "threshold-crossed" (crons "2026-01-01T00:00:00+00:00")
                 (suggestions_spec sample_views))
              (map event_json sample_events))
    as (sg & Hsg & _ & Hlen & _).
  - reflexivity.
  - reflexivity.
  - discriminate.
  - reflexivity.
  - exists sg. split; [exact Hsg|exact Hlen].
Defined.

Lemma pipeline_total_witness :
  exists p reason,
    build_instinct_plan "2026-01-01T00:00:00+00:00" sample_evaluation = Ok p /\
    dict_get p "reason" = Some (JStr reason).
Proof.
  destruct (pipeline_total no_str_scores "2026-01-01T00:00:00+00:00"
              sample_state sample_evaluation eq_refl)
    as (p & reason & Hp & _ & Hreason & _).
  exists p, reason. split; assumption.
Defined.

Lemma pipeline_threshold_witness :
  exists ev p reason,
    evaluate_child no_str_scores sample_state = Ok ev /\
    build_instinct_plan "2026-01-01T00:00:00+00:00" ev = Ok p /\
    dict_get p "reason" = Some (JStr reason) /\
    (reason = "threshold-crossed" <->
     exists metric v, In (metric, v) sample_scores /\ 40 <= v).
Proof.
  destruct (pipeline_threshold no_str_scores "2026-01-01T00:00:00+00:00"
              sample_state sample_child sample_scores)
    as (ev & p & reason & Hev & Hp & Hreason & Hiff & _).
  - reflexivity.
  - discriminate.
  - reflexivity.
  - distinct_keys.
  - exists ev, p, reason. repeat split; try assumption; apply Hiff.
Defined.

Lemma close_context_absent_current_witness :
  close_context_if_improved sample_previous [] 8
  = close_context_if_improved sample_previous sample_previous 8.
Proof.
  refine (proj1 (close_context_absent_current sample_previous [] [("fear", 90)] 8
                   _ _ _)).
  - reflexivity.
  - distinct_keys.
  - reflexivity.
Defined.

Lemma close_context_threshold_monotone_witness :
  exists improvements unresolved1 unresolved2,
    close_context_if_improved sample_previous sample_current 3
    = Ok (recovery_result (improvements, unresolved1)) /\
    close_context_if_improved sample_previous sample_current 8
    = Ok (recovery_result (improvements, unresolved2)) /\
    incl unresolved1 unresolved2.
Proof.
  destruct (close_context_threshold_monotone sample_previous sample_current
              [("fear", 90)] [("fear", 87)] 3 8)
    as (improvements & u1 & u2 & H1 & H2 & Hincl & _).
  - reflexivity.
  - reflexivity.
  - distinct_keys.
  - lia.
  - exists improvements, u1, u2. repeat split; assumption.
Defined.

Lemma recovery_after_evaluation_witness :
  exists improvements unresolved,
    close_context_if_improved sample_evaluation sample_evaluation 8
    = Ok (recovery_result (improvements, unresolved)).
Proof.
  destruct (recovery_after_evaluation no_str_scores sample_state sample_state
              sample_evaluation sample_evaluation 8 eq_refl eq_refl)
    as (s1 & s2 & improvements & unresolved & _ & _ & H & _).
  exists improvements, unresolved. exact H.
Defined.

Lemma main_own_output_witness :
  exists recovery,
    main_document no_str_scores "2026-01-02T00:00:00+00:00"
      "2026-01-02T00:00:01+00:00" (JDict sample_state)
      (Some (JDict [("evaluatedAt", JStr "2026-01-01T00:00:01+00:00");
                    ("evaluation", JDict sample_evaluation);
                    ("plan",
                     JDict (plan true "threshold-crossed"
                              (crons "2026-01-01T00:00:00+00:00")
                              (suggestions_spec sample_views)))]))
    = Ok ([("evaluatedAt", JStr "2026-01-02T00:00:01+00:00");
           ("evaluation", JDict sample_evaluation);
           ("plan",
            JDict (plan true "threshold-crossed"
                     (crons "2026-01-02T00:00:00+00:00")
                     (suggestions_spec sample_views)))]
          ++ [("recovery", JDict recovery)]).
Proof.
  destruct (main_own_output no_str_scores
              "2026-01-01T00:00:00+00:00" "2026-01-01T00:00:01+00:00"
              "2026-01-02T00:00:00+00:00" "2026-01-02T00:00:01+00:00"
              (JDict sample_state) (JDict sample_state) None
              [("evaluatedAt", JStr "2026-01-01T00:00:01+00:00");
               ("evaluation", JDict sample_evaluation);
               ("plan",
                JDict (plan true "threshold-crossed"
                         (crons "2026-01-01T00:00:00+00:00")
                         (suggestions_spec sample_views)))]
              [("evaluatedAt", JStr "2026-01-02T00:00:01+00:00");
               ("evaluation", JDict sample_evaluation);
               ("plan",
                JDict (plan true "threshold-crossed"
                         (crons "2026-01-02T00:00:00+00:00")
                         (suggestions_spec sample_views)))])
    as (recovery & H & _).
  - reflexivity.
  - reflexivity.
  - exists recovery. exact H.
Defined.

Lemma main_previous_edges_witness :
  main_document no_str_scores "2026-01-02T00:00:00+00:00"
    "2026-01-02T00:00:01+00:00" (JDict sample_state) (Some (JDict []))
  = Ok ([("evaluatedAt", JStr "2026-01-02T00:00:01+00:00");
         ("evaluation", JDict sample_evaluation);
         ("plan",
          JDict (plan true "threshold-crossed"
                   (crons "2026-01-02T00:00:00+00:00")
                   (suggestions_spec sample_views)))]
        ++ [("recovery",
             JDict [("improvements", JDict []); ("resolved", JBool true);
                    ("unresolved", JList []);
                    ("nextAction", JStr "exit-instinct-context")])]).
Proof.
  refine (proj1 (main_previous_edges no_str_scores
                   "2026-01-02T00:00:00+00:00" "2026-01-02T00:00:01+00:00"
                   (JDict sample_state) _ _) [] _).
  - reflexivity.
  - reflexivity.
Defined.

Lemma main_unchanged_state_witness :
  exists ev p recovery,
    main_document no_str_scores "2026-01-02T00:00:00+00:00"
      "2026-01-02T00:00:01+00:00" (JDict sample_state)
      (Some (JDict [("evaluatedAt", JStr "2026-01-01T00:00:01+00:00");
                    ("evaluation", JDict sample_evaluation);
                    ("plan",
                     JDict (plan true "threshold-crossed"
                              (crons "2026-01-01T00:00:00+00:00")
                              (suggestions_spec sample_views)))]))
    = Ok [("evaluatedAt", JStr "2026-01-02T00:00:01+00:00");
          ("evaluation", JDict ev); ("plan", JDict p);
          ("recovery", JDict recovery)] /\
    (dict_get recovery "resolved" = Some (JBool true) <->
     dict_get p "reason" <> Some (JStr "threshold-crossed")).
Proof.
  destruct (main_unchanged_state no_str_scores
              "2026-01-01T00:00:00+00:00" "2026-01-01T00:00:01+00:00"
              "2026-01-02T00:00:00+00:00" "2026-01-02T00:00:01+00:00"
              (JDict sample_state)
              [("evaluatedAt", JStr "2026-01-01T00:00:01+00:00");
               ("evaluation", JDict sample_evaluation);
               ("plan",
                JDict (plan true "threshold-crossed"
                         (crons "2026-01-01T00:00:00+00:00")
                         (suggestions_spec sample_views)))])
    as (ev & p & recovery & H & Hiff & _).
  - reflexivity.
  - exists ev, p, recovery. split; [exact H|exact Hiff].
Defined.
